(** * panoramaMaker: the DTED tile decoder of [tile.c]

    A shallow embedding of [tile.c] (the elevation sample codec
    [toLittleEndian], the decoder [openTile] and the container constructor
    [initSpace]) together with the properties its specification states.

    Conventions of the embedding.
    - C integers are [Z]; every conversion to a narrower type is written out
      ([to_uint16], [to_int16]) and every signed [int] operation that can
      leave the 32-bit range is checked and yields undefined behaviour.
    - A [double] is a [spec_float] (IEEE 754 binary64 data).
    - The C library and the process state are threaded explicitly through a
      small state/exit monad: a run either returns, terminates the process
      through the error reporter, or has undefined behaviour. *)

From Stdlib Require Import ZArith Lia List String Ascii.
From Stdlib Require Import Strings.Byte.
From Stdlib Require Import Floats.SpecFloat.
From Stdlib Require Import DecimalString.
From stdpp Require Import base list gmap strings.

Local Open Scope Z_scope.

(** ** Machine integers *)

Definition INT_MIN : Z := -2147483648.
Definition INT_MAX : Z := 2147483647.

(** [(uint16_t) z]: reduction modulo 2^16. *)
Definition to_uint16 (z : Z) : Z := z mod 65536.

(** [(int16_t) z]: the low 16 bits read in two's complement (what every
    mainstream compiler does for the implementation-defined narrowing). *)
Definition to_int16 (z : Z) : Z := (z + 32768) mod 65536 - 32768.

(** [(size_t) z] on an LP64 target. *)
Definition to_size_t (z : Z) : Z := z mod 18446744073709551616.

Definition in_int (z : Z) : bool := (INT_MIN <=? z) && (z <=? INT_MAX).

(** ** Elevation sample codec: [toLittleEndian] (tile.c, lines 27-32)

    [x] is the [int16_t] argument.  The operands of [>>], [<<] and [|] are
    promoted to [int], where [(uint16_t) x << 8] is at most [0xFFFF00]; the
    result is narrowed back to [int16_t] by the assignment.  In the second
    statement [x] is promoted with its sign, so [Z.land] on the (possibly
    negative) integer is the C operation. *)
Definition toLittleEndian (x : Z) : Z :=
  let x1 := to_int16 (Z.lor (Z.shiftr (to_uint16 x) 8)
                            (Z.shiftl (to_uint16 x) 8)) in
  let x2 := to_int16 (if Z.land x1 0x8000 =? 0
                      then x1
                      else -1 * Z.land x1 0x7FFF) in
  x2.

(** *** The codec as the specification words it

    Swap the two octets of the 16-bit value; if bit 15 of the swapped value
    is set the result is minus its low 15 bits, otherwise the swapped value. *)
Definition swap_octets (u : Z) : Z := (u mod 256) * 256 + (u / 256) mod 256.

Definition codec_spec (raw : Z) : Z :=
  let s := swap_octets (to_uint16 raw) in
  if Z.testbit s 15 then - (s mod 32768) else s.

(** The inverse transform named by the specification ("encode like disk"):
    sign-magnitude with the sign in bit 15 and the magnitude in bits 0-14,
    then the octet swap, giving the 16-bit value the host reads. *)
Definition sign_magnitude (x : Z) : Z :=
  if x <? 0 then Z.lor 0x8000 (Z.land (- x) 0x7FFF) else Z.land x 0x7FFF.

Definition encode_like_disk (x : Z) : Z :=
  to_int16 (swap_octets (sign_magnitude x)).

(** The 16-bit value a little-endian host reads from two consecutive
    octets of the file. *)
Definition host16 (b0 b1 : Z) : Z := to_int16 (b0 + 256 * b1).

(** Exhaustive check of a boolean predicate over the 16-bit patterns. *)
Fixpoint check_from (p : Z -> bool) (u : Z) (n : nat) : bool :=
  match n with
  | O => true
  | S n' => p u && check_from p (u + 1) n'
  end.

Definition all_uint16 (p : Z -> bool) : bool :=
  check_from p 0 (Z.to_nat 65536).


(** ** The platform outside [tile.c] *)

(** The macros of [tile.h], which is not part of the sources at hand: they
    are parameters of the development. *)
Record tile_h := {
  DTED_DSI_NBLAT : Z;
  DTED_DSI_NBLON : Z;
  DTED_DSI_DATACOV : Z;
  DTED_DATA : Z;
  SIZE_SPACE : Z;
  DATA_DIR : string
}.

Record Tile := {
  latitudeDimension : Z;
  longitudeDimension : Z;
  data : list Z
}.

(** A slot of [tiles] holds a [Tile*]: [None] is the null pointer. *)
Record Space := {
  originLon : spec_float;
  originLat : spec_float;
  tiles : list (option Tile)
}.

(** What the run cannot decide by itself: the files that can be opened,
    whether each [malloc] succeeds, whether plain [char] is signed, and the
    indeterminate contents of fresh storage. *)
Record Env := {
  files : gmap string (list byte);
  space_alloc : bool;
  tile_alloc : bool;
  data_alloc : Z -> bool;
  CHAR_SIGNED : bool;
  stack_junk : nat -> byte;
  heap_junk : nat -> Z
}.

(** An open stream: the octets of the file and the position indicator. *)
Record FILE := { f_bytes : list byte; f_pos : Z }.

(** Lines written to standard output. *)
Inductive Out :=
| OutOpening (fileName : string)
| OutSize (fileSize : Z)
| OutCoverage (coverage : Z).

(** The process state the functions act on: the stream [dtedFile] when it
    is open, and what has been printed. *)
Record World := { stream : option FILE; console : list Out }.

(** The diagnostics handed to [errPrintf], one per call site. *)
Inductive Fatal :=
| ErrOpen (fileName : string)
| ErrSize (expectedSize : Z)
| ErrTileAlloc
| ErrDataAlloc
| ErrSpaceAlloc.

(** Behaviours the C standard leaves undefined. *)
Inductive UB :=
| IntOverflow
| OutOfBounds (index len : Z)
| FloatToInt
| BufferOverflow (needed : Z)
| NullStream.

Inductive Outcome (A : Type) :=
| Done (a : A) (w : World)
| Exit (e : Fatal) (w : World)
| Undefined (u : UB).
Arguments Done {A} a w.
Arguments Exit {A} e w.
Arguments Undefined {A} u.

Definition M (A : Type) : Type := World -> Outcome A.

Definition ret {A} (a : A) : M A := fun w => Done a w.

Definition bind {A B} (m : M A) (k : A -> M B) : M B :=
  fun w => match m w with
           | Done a w' => k a w'
           | Exit e w' => Exit e w'
           | Undefined u => Undefined u
           end.

Declare Scope tile_scope.
Delimit Scope tile_scope with tile.
Notation "x <- m ;; k" := (bind m (fun x => k))
  (at level 100, m at next level, right associativity) : tile_scope.
Notation "m ;;; k" := (bind m (fun _ => k))
  (at level 100, right associativity) : tile_scope.
Local Open Scope tile_scope.

Definition undefined {A} (u : UB) : M A := fun _ => Undefined u.

(** Modelled from the spec: [errPrintf] of [error.h], which is not part of
    the sources at hand.  The specification describes it as a reporter that
    writes the diagnostic and terminates the process directly from inside
    the parsing logic; it never returns to its caller. *)
Definition errPrintf {A} (e : Fatal) : M A := fun w => Exit e w.

(** A signed [int] result: overflow is undefined. *)
Definition int_ (z : Z) : M Z :=
  if in_int z then ret z else undefined IntOverflow.

(** [for (int i = i0; <n more rounds>; i++) s = body(i, s)]. *)
Fixpoint for_loop {S : Type} (n : nat) (i : Z) (body : Z -> S -> M S) (s : S)
  : M S :=
  match n with
  | O => ret s
  | Datatypes.S n' => s' <- body i s ;; for_loop n' (i + 1) body s'
  end.

(** *** stdio on the single stream of [openTile] *)

Definition printf (o : Out) : M unit :=
  fun w => Done tt {| stream := stream w; console := console w ++ [o] |}.

Definition with_stream {A} (k : FILE -> M A) : M A :=
  fun w => match stream w with
           | Some f => k f w
           | None => Undefined NullStream
           end.

Definition set_stream (f : option FILE) : M unit :=
  fun w => Done tt {| stream := f; console := console w |}.

(** [fseek]: a negative resulting position is refused and leaves the
    indicator where it was (the return value is ignored by the caller). *)
Definition seek_to (f : FILE) (p : Z) : FILE :=
  if p <? 0 then f else {| f_bytes := f_bytes f; f_pos := p |}.

Definition fseek_SET (off : Z) : M unit :=
  with_stream (fun f => set_stream (Some (seek_to f off))).

Definition fseek_CUR (off : Z) : M unit :=
  with_stream (fun f => set_stream (Some (seek_to f (f_pos f + off)))).

Definition fseek_END (off : Z) : M unit :=
  with_stream (fun f =>
    set_stream (Some (seek_to f (Z.of_nat (length (f_bytes f)) + off)))).

Definition ftell : M Z := with_stream (fun f => ret (f_pos f)).

(** The [n] octets of the file from offset [off] on, fewer at the end. *)
Definition file_field (bytes : list byte) (off : Z) (n : nat) : list byte :=
  take n (drop (Z.to_nat off) bytes).

(** [fread(buf, n, 1, f)]: the octets obtained, the indicator advanced by
    as many. *)
Definition fread (n : nat) : M (list byte) :=
  with_stream (fun f =>
    let got := file_field (f_bytes f) (f_pos f) n in
    set_stream (Some {| f_bytes := f_bytes f;
                        f_pos := f_pos f + Z.of_nat (length got) |}) ;;;
    ret got).

Definition fclose : M unit := with_stream (fun _ => set_stream None).

(** Octets stored at the start of a buffer, the rest of it untouched. *)
Definition overwrite {A} (got buf : list A) : list A :=
  got ++ drop (length got) buf.

(** *** printf conversions used by [initSpace] *)

Definition decimal (n : Z) : string :=
  NilZero.string_of_uint (N.to_uint (Z.to_N n)).

Fixpoint zeros (n : nat) : string :=
  match n with
  | O => EmptyString
  | Datatypes.S n' => String "0" (zeros n')
  end.

(** [%0<width>d]: the sign when negative, then the decimal digits padded
    with zeros on the left up to [width] characters in all. *)
Definition fmt_0d (width : nat) (z : Z) : string :=
  let sign := if z <? 0 then "-"%string else EmptyString in
  let digits := decimal (Z.abs z) in
  String.append sign
    (String.append
       (zeros (width - String.length sign - String.length digits)) digits).

(** *** [double] *)

(** [x > 0] on doubles: false for a NaN. *)
Definition double_gt0 (x : spec_float) : bool := SFltb (S754_zero false) x.

(** [(int) x]: the value with its fractional part discarded; undefined when
    that is not representable in [int] (and for infinities and NaN). *)
Definition double_to_int (x : spec_float) : M Z :=
  match x with
  | S754_zero _ => ret 0
  | S754_finite s m e =>
      let mag := if 0 <=? e then Z.pos m * 2 ^ e else Z.pos m / 2 ^ (- e) in
      let t := if s then - mag else mag in
      if in_int t then ret t else undefined FloatToInt
  | _ => undefined FloatToInt
  end.

Section Tile_c.
Context (cfg : tile_h) (env : Env).

(** The value of a plain [char] holding the octet [b]. *)
Definition char_val (b : byte) : Z :=
  let u := Z.of_N (Byte.to_N b) in
  if CHAR_SIGNED env && (128 <=? u) then u - 256 else u.

(** [headerData[i]], promoted to [int]. *)
Definition hd (headerData : list byte) (i : nat) : Z :=
  char_val (nth i headerData x00).

(** Lines 70-71 and 74-75: the four characters as a decimal number.  The
    value stays far inside [int] whatever the characters are. *)
Definition dimension_of (headerData : list byte) : Z :=
  1000 * (hd headerData 0 - 48) + 100 * (hd headerData 1 - 48)
  + 10 * (hd headerData 2 - 48) + (hd headerData 3 - 48).

(** Lines 89-90. *)
Definition coverage_of (headerData : list byte) : Z :=
  let coverage := 10 * (hd headerData 0 - 48) + (hd headerData 1 - 48) in
  if coverage =? 0 then 100 else coverage.

(** Line 81, in [int] arithmetic. *)
Definition expectedSize_of (nbLat nbLon : Z) : M Z :=
  a <- int_ (nbLat * 2) ;;
  b <- int_ (a + 12) ;;
  c <- int_ (b * nbLon) ;;
  int_ (DTED_DATA cfg + c).

Definition fopen (fileName : string) : M bool :=
  fun w => match files env !! fileName with
           | Some bytes =>
               Done true {| stream := Some {| f_bytes := bytes; f_pos := 0 |};
                            console := console w |}
           | None => Done false w
           end.

(** The 16-bit element after [fread(&tile->data[pt], 2, 1, f)] on a
    little-endian host: the octets obtained replace the low octets of the
    element. *)
Definition load16 (got : list byte) (old : Z) : Z :=
  match got with
  | [b0; b1] => host16 (Z.of_N (Byte.to_N b0)) (Z.of_N (Byte.to_N b1))
  | [b0] => to_int16 (Z.of_N (Byte.to_N b0) + 256 * (to_uint16 old / 256))
  | _ => old
  end.

(** Lines 112-114: one sample.  [d] is the array [tile->data]; an index
    outside it is an access outside the allocated object. *)
Definition store_sample (nbLon i j : Z) (d : list Z) : M (list Z) :=
  a <- int_ (i * nbLon) ;;
  pt <- int_ (a + j) ;;
  if (0 <=? pt) && (pt <? Z.of_nat (length d)) then
    got <- fread 2 ;;
    let raw := load16 got (nth (Z.to_nat pt) d 0) in
    ret (<[Z.to_nat pt := toLittleEndian raw]> d)
  else undefined (OutOfBounds pt (Z.of_nat (length d))).

(** Lines 107-117. *)
Definition store_records (nbLat nbLon : Z) (d : list Z) : M (list Z) :=
  for_loop (Z.to_nat nbLon) 0 (fun i d =>
    fseek_CUR 8 ;;;
    d' <- for_loop (Z.to_nat nbLat) 0 (store_sample nbLon i) d ;;
    fseek_CUR 4 ;;;
    ret d') d.

(** [openTile] (lines 51-121).  [tile->data] has [int16_t] elements, as
    the argument of [toLittleEndian] has. *)
Definition openTile (fileName : string) : M Tile :=
  dtedFile <- fopen fileName ;;
  (if dtedFile : bool then ret tt else errPrintf (ErrOpen fileName)) ;;;
  printf (OutOpening fileName) ;;;
  let headerData := map (stack_junk env) (seq 0 10) in
  fseek_SET (DTED_DSI_NBLAT cfg) ;;;
  got <- fread 4 ;;
  let headerData := overwrite got headerData in
  let nbLat := dimension_of headerData in
  fseek_SET (DTED_DSI_NBLON cfg) ;;;
  got <- fread 4 ;;
  let headerData := overwrite got headerData in
  let nbLon := dimension_of headerData in
  fseek_END 0 ;;;
  fileSize <- ftell ;;
  printf (OutSize fileSize) ;;;
  expectedSize <- expectedSize_of nbLat nbLon ;;
  (if fileSize =? expectedSize then ret tt
   else errPrintf (ErrSize expectedSize)) ;;;
  fseek_SET (DTED_DSI_DATACOV cfg) ;;;
  got <- fread 2 ;;
  let headerData := overwrite got headerData in
  printf (OutCoverage (coverage_of headerData)) ;;;
  (if tile_alloc env then ret tt else errPrintf ErrTileAlloc) ;;;
  n <- int_ (nbLat * nbLon) ;;
  let size := to_size_t (to_size_t n * 2) in
  (if data_alloc env size then ret tt else errPrintf ErrDataAlloc) ;;;
  let data0 := map (fun k => to_int16 (heap_junk env k))
                   (seq 0 (Z.to_nat (size / 2))) in
  fseek_SET 3428 ;;;
  d <- store_records nbLat nbLon data0 ;;
  fclose ;;;
  ret {| latitudeDimension := nbLat;
         longitudeDimension := nbLon;
         data := d |}.

(** Lines 150-157 of [initSpace]: the name of the file of the origin.
    [fileName] has room for 35 characters, the terminator included;
    [DATA_DIR], pasted in front of the format, is taken to hold no
    conversion specification of its own. *)
Definition origin_fileName (originLon originLat : spec_float) : M string :=
  let lonDir := if double_gt0 originLon then "e"%char else "w"%char in
  let latDir := if double_gt0 originLat then "n"%char else "s"%char in
  lonDeg <- double_to_int originLon ;;
  lonDeg <- (if 0 <? lonDeg then ret lonDeg
             else (t <- int_ (lonDeg - 1) ;; int_ (- t))) ;;
  latDeg <- double_to_int originLat ;;
  latDeg <- (if 0 <? latDeg then ret latDeg
             else (t <- int_ (latDeg - 1) ;; int_ (- t))) ;;
  let fileName :=
    String.append (DATA_DIR cfg)
      (String latDir
         (String.append (fmt_0d 2 latDeg)
            (String "_"
               (String lonDir
                  (String.append (fmt_0d 3 lonDeg) "_1arc_v3.dt2"))))) in
  let needed := Z.of_nat (String.length fileName) + 1 in
  if needed <=? 35 then ret fileName
  else undefined (BufferOverflow needed).

(** [initSpace] (lines 131-161). *)
Definition initSpace (originLon originLat : spec_float) : M Space :=
  (if space_alloc env then ret tt else errPrintf ErrSpaceAlloc) ;;;
  let tiles0 : list (option Tile) :=
    replicate (Z.to_nat (SIZE_SPACE cfg)) None in
  fileName <- origin_fileName originLon originLat ;;
  tile <- openTile fileName ;;
  let centre := Z.quot (SIZE_SPACE cfg) 2 in
  if (0 <=? centre) && (centre <? SIZE_SPACE cfg) then
    ret {| originLon := originLon;
           originLat := originLat;
           tiles := <[Z.to_nat centre := Some tile]> tiles0 |}
  else undefined (OutOfBounds centre (SIZE_SPACE cfg)).

End Tile_c.

(** ** Concrete platforms and files, for running the model *)

(** DTED level 2: the data set identification record starts at octet 80 and
    the elevation records at octet 3428. *)
Definition dted2 : tile_h :=
  {| DTED_DSI_NBLAT := 361;
     DTED_DSI_NBLON := 365;
     DTED_DSI_DATACOV := 369;
     DTED_DATA := 3428;
     SIZE_SPACE := 9;
     DATA_DIR := "data/" |}.

Definition bytes_of (s : string) : list byte := list_byte_of_string s.

(** A file with the three header fields set and [body] as data section. *)
Definition dted_file (nbLat nbLon cov : string) (body : list byte)
  : list byte :=
  replicate 361 x00 ++ bytes_of nbLat ++ bytes_of nbLon ++ bytes_of cov
  ++ replicate 3057 x00 ++ body.

(** One elevation record: 8 octets of header, the samples, 4 of checksum. *)
Definition dted_record (samples : list byte) : list byte :=
  replicate 8 xaa ++ samples ++ replicate 4 xcc.

Definition env_of (fs : gmap string (list byte)) : Env :=
  {| files := fs;
     space_alloc := true;
     tile_alloc := true;
     data_alloc := fun _ => true;
     CHAR_SIGNED := true;
     stack_junk := fun _ => xff;
     heap_junk := fun _ => 21845 |}.

Definition w0 : World := {| stream := None; console := [] |}.

(** The platform on which ["tile.dt2"] is the only file. *)
Definition env_with (bytes : list byte) : Env :=
  env_of {[ "tile.dt2"%string := bytes ]}.

(** A 1 x 1 tile: one record with the sample +100. *)
Definition file_1x1 : list byte :=
  dted_file "0001" "0001" "37" (dted_record [x00; x64]).

(** A 2 x 2 tile with the samples +100, -100, 0 and "minus zero". *)
Definition file_2x2 : list byte :=
  dted_file "0002" "0002" "00"
    (dted_record [x00; x64; x80; x64] ++ dted_record [x00; x00; x80; x00]).

(** One latitude post, two longitude posts: a tile that is not square. *)
Definition file_1x2 : list byte :=
  dted_file "0001" "0002" "00"
    (dted_record [x00; x64] ++ dted_record [x80; x64]).

(** The double 0. *)
Definition d_0 : spec_float := S754_zero false.

(** The doubles nearest to -3.2, -48.2, 2.5 and 48.8. *)
Definition d_m3_2 : spec_float := S754_finite true 7205759403792794 (-51).
Definition d_m48_2 : spec_float := S754_finite true 6783546938726810 (-47).
Definition d_2_5 : spec_float := S754_finite false 5629499534213120 (-51).
Definition d_48_8 : spec_float := S754_finite false 6867989431740006 (-47).

(** ** The specification's wording, for comparison with the code *)

(** A decimal field: the sum of [(digit - '0') * 10^place], the last
    character having place 0. *)
Fixpoint decimal_value (chars : list Z) : Z :=
  match chars with
  | [] => 0
  | c :: rest => (c - 48) * 10 ^ Z.of_nat (length rest) + decimal_value rest
  end.

(** The expected size of the file, with 12 octets of overhead per record. *)
Definition expected_size (cfg : tile_h) (latitudeCount longitudeCount : Z) : Z :=
  DTED_DATA cfg + (latitudeCount * 2 + 12) * longitudeCount.

(** The coverage field: the two-digit number, 0 standing for 100. *)
Definition effective_coverage (chars : list Z) : Z :=
  if decimal_value chars =? 0 then 100 else decimal_value chars.

(** The coordinate truncated toward zero: the quotient, rounded toward
    zero, of the exact value [(-1)^s * m * 2^e] of the double. *)
Definition truncate (x : spec_float) : option Z :=
  match x with
  | S754_zero _ => Some 0
  | S754_finite s m e =>
      let num := (if s then Z.neg m else Z.pos m) * 2 ^ Z.max e 0 in
      Some (Z.quot num (2 ^ Z.max (- e) 0))
  | _ => None
  end.

(** Whether the coordinate is above zero, read off its exact value
    [(-1)^s * m * 2^e]: zero is not, an infinity is when it is the positive
    one, and a NaN is above nothing. *)
Definition above_zero (x : spec_float) : bool :=
  match x with
  | S754_zero _ => false
  | S754_infinity s => negb s
  | S754_nan => false
  | S754_finite s m e =>
      0 <? (if s then Z.neg m else Z.pos m) * 2 ^ Z.max e 0
  end.

Definition degree_magnitude (truncated : Z) : Z :=
  if truncated <=? 0 then - (truncated - 1) else truncated.

Definition digit (d : Z) : ascii := ascii_of_N (48 + Z.to_N (d mod 10)).

Definition two_digit (d : Z) : string :=
  String (digit (d / 10)) (String (digit d) EmptyString).

Definition three_digit (d : Z) : string :=
  String (digit (d / 100)) (two_digit d).

(** [<latHemisphere><latDegree:2-digit>_<lonHemisphere><lonDegree:3-digit>_1arc_v3.dt2] *)
Definition dted_name (originLon originLat : spec_float) : option string :=
  match truncate originLon, truncate originLat with
  | Some tlon, Some tlat =>
      let latHemisphere := if above_zero originLat then "n"%char else "s"%char in
      let lonHemisphere := if above_zero originLon then "e"%char else "w"%char in
      Some (String latHemisphere
              (String.append (two_digit (degree_magnitude tlat))
                 (String "_"
                    (String lonHemisphere
                       (String.append (three_digit (degree_magnitude tlon))
                          "_1arc_v3.dt2")))))
  | _, _ => None
  end.

(** ** Reading [openTile] in two parts *)

Section Tile_c_parts.
Context (cfg : tile_h) (env : Env).

(** [headerData] after lines 68-69, after lines 72-73 and after lines
    87-88, for a file with the octets [bytes]. *)
Definition header_lat (bytes : list byte) : list byte :=
  overwrite (file_field bytes (DTED_DSI_NBLAT cfg) 4)
            (map (stack_junk env) (seq 0 10)).

Definition header_lon (bytes : list byte) : list byte :=
  overwrite (file_field bytes (DTED_DSI_NBLON cfg) 4) (header_lat bytes).

Definition header_cov (bytes : list byte) : list byte :=
  overwrite (file_field bytes (DTED_DSI_DATACOV cfg) 2) (header_lon bytes).

(** [nbLat] and [nbLon] as lines 70-75 compute them. *)
Definition nbLat_of (bytes : list byte) : Z :=
  dimension_of env (header_lat bytes).

Definition nbLon_of (bytes : list byte) : Z :=
  dimension_of env (header_lon bytes).

(** Lines 87-120 of [openTile], entered once the size check has passed. *)
Definition decode_body (bytes : list byte) : M Tile :=
  let nbLat := nbLat_of bytes in
  let nbLon := nbLon_of bytes in
  fseek_SET (DTED_DSI_DATACOV cfg) ;;;
  got <- fread 2 ;;
  let headerData := overwrite got (header_lon bytes) in
  printf (OutCoverage (coverage_of env headerData)) ;;;
  (if tile_alloc env then ret tt else errPrintf ErrTileAlloc) ;;;
  n <- int_ (nbLat * nbLon) ;;
  let size := to_size_t (to_size_t n * 2) in
  (if data_alloc env size then ret tt else errPrintf ErrDataAlloc) ;;;
  let data0 := map (fun k => to_int16 (heap_junk env k))
                   (seq 0 (Z.to_nat (size / 2))) in
  fseek_SET 3428 ;;;
  d <- store_records nbLat nbLon data0 ;;
  fclose ;;;
  ret {| latitudeDimension := nbLat;
         longitudeDimension := nbLon;
         data := d |}.

(** The process state when the size check of lines 82-86 is made. *)
Definition world_at_check (fileName : string) (bytes : list byte)
    (w : World) : World :=
  {| stream := Some {| f_bytes := bytes;
                       f_pos := Z.of_nat (length bytes) |};
     console := (console w ++ [OutOpening fileName])
                ++ [OutSize (Z.of_nat (length bytes))] |}.

End Tile_c_parts.

(** A computation that never ends in [errPrintf], prints nothing and
    leaves an open stream open. *)
Definition quiet {A} (m : M A) : Prop :=
  forall w, match m w with
            | Done _ w' =>
                (stream w <> None -> stream w' <> None)
                /\ console w' = console w
            | Exit _ _ => False
            | Undefined _ => True
            end.

(** A computation on the sample array that keeps its length. *)
Definition keeps_length (f : list Z -> M (list Z)) : Prop :=
  forall d w d' w', f d w = Done d' w' -> length d' = length d.

(** ** Releasing the storage: [freeTile] and [freeSpace] *)

(** A block handed to [free]. *)
Inductive Block :=
| DataBlock (d : list Z)
| TileBlock (t : Tile)
| SpaceBlock (s : Space).

(** [freeTile] (lines 39-43): the blocks released, in the order of the two
    calls of [free]. *)
Definition freeTile (tile : Tile) : list Block :=
  [DataBlock (data tile); TileBlock tile].

(** [freeSpace] (lines 168-178): the blocks released, in order.  The array
    [tiles] of the structure has [SIZE_SPACE] slots; reading a slot the
    value does not have is an access outside it. *)
Definition freeSpace (cfg : tile_h) (space : Space) : M (list Block) :=
  freed <- for_loop (Z.to_nat (SIZE_SPACE cfg)) 0 (fun i freed =>
             match tiles space !! Z.to_nat i with
             | Some (Some tile) => ret (freed ++ freeTile tile)
             | Some None => ret freed
             | None =>
                 undefined (OutOfBounds i (Z.of_nat (length (tiles space))))
             end) [] ;;
  ret (freed ++ [SpaceBlock space]).

(** The blocks one slot contributes. *)
Definition slot_blocks (slot : option Tile) : list Block :=
  match slot with
  | Some tile => freeTile tile
  | None => []
  end.

(** ** Vocabulary for the runs of the decoder *)

(** The process state with the stream open on [bytes] at position [p]. *)
Definition at_pos (bytes : list byte) (p : Z) (out : list Out) : World :=
  {| stream := Some {| f_bytes := bytes; f_pos := p |}; console := out |}.

(** The array [malloc] hands out, with its indeterminate contents. *)
Definition fresh_data (env : Env) (n : nat) : list Z :=
  map (fun k => to_int16 (heap_junk env k)) (seq 0 n).

(** Where the sample of latitude index [j] of the record of longitude index
    [i] lies in the file: the records start at octet 3428, each has 8
    octets before its [nbLat] samples and 4 after. *)
Definition sample_offset (nbLat i j : Z) : Z :=
  3428 + i * (nbLat * 2 + 12) + 8 + 2 * j.

(** The elevation the codec gives for the two octets at offset [off]. *)
Definition file_sample (bytes : list byte) (off : Z) : Z :=
  toLittleEndian (load16 (file_field bytes off 2) 0).

(** An ASCII digit. *)
Definition is_digit (b : byte) : Prop := 48 <= Z.of_N (Byte.to_N b) <= 57.

(** The doubles 0.5 and 1.5. *)
Definition d_0_5 : spec_float := S754_finite false 4503599627370496 (-53).
Definition d_1_5 : spec_float := S754_finite false 6755399441055744 (-52).

(** A 3 x 2 tile: three latitude posts, two longitude posts. *)
Definition file_3x2 : list byte :=
  dted_file "0003" "0002" "00"
    (dted_record [x00; x01; x00; x02; x00; x03]
     ++ dted_record [x00; x04; x00; x05; x00; x06]).

(** The two ways a run over the sample array can go once the stream is
    open: it returns an array of the same length with the stream still
    open, or it stops at a store beyond the end of the array. *)
Definition done_or_outside (len : nat) (out : Outcome (list Z)) : Prop :=
  match out with
  | Done d' w' => length d' = len /\ stream w' <> None
  | Undefined (OutOfBounds pt l) => l = Z.of_nat len /\ Z.of_nat len <= pt
  | _ => False
  end.

(** * Properties *)

Lemma check_from_spec (p : Z -> bool) (n : nat) :
  forall u, check_from p u n = true ->
  forall v, u <= v < u + Z.of_nat n -> p v = true.
Proof.
  induction n as [|n IH]; intros u H v Hv; [lia|].
  cbn [check_from] in H. apply andb_prop in H as [Hu Hrest].
  destruct (Z.eq_dec v u) as [->|Hne]; [exact Hu|].
  apply (IH (u + 1) Hrest). lia.
Qed.

Lemma all_uint16_spec (p : Z -> bool) :
  all_uint16 p = true -> forall u, 0 <= u < 65536 -> p u = true.
Proof.
  unfold all_uint16. intros H u Hu.
  apply (check_from_spec p _ 0 H). lia.
Qed.

Lemma toLittleEndian_uint16 x : toLittleEndian x = toLittleEndian (to_uint16 x).
Proof.
  unfold toLittleEndian, to_uint16. now rewrite Z.mod_mod by lia.
Qed.

Lemma codec_spec_uint16 x : codec_spec x = codec_spec (to_uint16 x).
Proof.
  unfold codec_spec, to_uint16. now rewrite Z.mod_mod by lia.
Qed.

Lemma toLittleEndian_codec_spec x : toLittleEndian x = codec_spec x.
Proof.
  rewrite toLittleEndian_uint16, codec_spec_uint16.
  assert (Hu : 0 <= to_uint16 x < 65536) by (apply Z.mod_pos_bound; lia).
  revert Hu. generalize (to_uint16 x). intros u Hu.
  apply Z.eqb_eq.
  apply (all_uint16_spec (fun u => toLittleEndian u =? codec_spec u)); [|exact Hu].
  vm_compute. reflexivity.
Qed.

(** ** The codec *)

Lemma swap_octets_range u : 0 <= swap_octets u < 65536.
Proof.
  unfold swap_octets.
  pose proof (Z.mod_pos_bound u 256 ltac:(lia)).
  pose proof (Z.mod_pos_bound (u / 256) 256 ltac:(lia)).
  lia.
Qed.

Lemma codec_spec_range raw : -32767 <= codec_spec raw <= 32767.
Proof.
  unfold codec_spec.
  set (s := swap_octets (to_uint16 raw)).
  pose proof (swap_octets_range (to_uint16 raw)) as Hs. fold s in Hs.
  destruct (Z.testbit s 15) eqn:Hbit.
  - pose proof (Z.mod_pos_bound s 32768 ltac:(lia)). lia.
  - apply Z.testbit_false in Hbit; [|lia].
    change (2 ^ 15) with 32768 in Hbit.
    assert (Hq : 0 <= s / 32768 < 2).
    { split; [apply Z.div_pos; lia | apply Z.div_lt_upper_bound; lia]. }
    assert (s / 32768 = 0).
    { destruct (Z.eq_dec (s / 32768) 0) as [E|E]; [exact E|].
      assert (s / 32768 = 1) as E1 by lia. rewrite E1 in Hbit. discriminate. }
    apply Z.div_small_iff in H; lia.
Qed.

Lemma toLittleEndian_range x : -32767 <= toLittleEndian x <= 32767.
Proof. rewrite toLittleEndian_codec_spec. apply codec_spec_range. Qed.

Lemma roundtrip_checked :
  all_uint16 (fun u => (u =? 0)
                       || (toLittleEndian (encode_like_disk (u - 32768))
                           =? u - 32768)) = true.
Proof. vm_compute. reflexivity. Qed.

Lemma toLittleEndian_encode x :
  -32767 <= x <= 32767 -> toLittleEndian (encode_like_disk x) = x.
Proof.
  intros Hx.
  pose proof (all_uint16_spec _ roundtrip_checked (x + 32768) ltac:(lia)) as H.
  cbv beta in H. apply orb_prop in H as [H|H].
  - apply Z.eqb_eq in H. lia.
  - apply Z.eqb_eq in H. replace (x + 32768 - 32768) with x in H by lia.
    exact H.
Qed.

(** C2: the codec swaps the two octets of its 16-bit argument and reads the
    swapped value as sign-magnitude: minus the low 15 bits when bit 15 is
    set, the swapped value itself otherwise.  It is a total function: the
    equation holds for every argument, and there is no failing case. *)
Theorem C2_codec_is_swap_then_sign_magnitude :
  forall x : Z,
    toLittleEndian x =
      (let s := swap_octets (to_uint16 x) in
       if Z.testbit s 15 then - (s mod 32768) else s).
Proof. intros x. apply toLittleEndian_codec_spec. Qed.

(** C4 as stated fails: -32768 is a 16-bit value, and no encoding of it
    decodes back to it. *)
Lemma C4_roundtrip_fails_at_min :
  -32768 <= -32768 <= 32767
  /\ toLittleEndian (encode_like_disk (-32768)) <> -32768
  /\ forall raw, toLittleEndian raw <> -32768.
Proof.
  split; [lia|]. split.
  - vm_compute. discriminate.
  - intros raw. pose proof (toLittleEndian_range raw). lia.
Qed.

(** C4, amended: decoding the on-disk encoding of [x] gives [x] back for
    every [x] from -32767 to 32767, the values sign-magnitude can hold; the
    disk octets 00 64 and 80 64, which encode +100 and -100, decode to +100
    and -100. *)
Theorem C4_roundtrip_within_sign_magnitude :
  forall x : Z,
    -32767 <= x <= 32767 ->
    toLittleEndian (encode_like_disk x) = x
    /\ encode_like_disk 100 = host16 0x00 0x64
    /\ encode_like_disk (-100) = host16 0x80 0x64
    /\ toLittleEndian (host16 0x00 0x64) = 100
    /\ toLittleEndian (host16 0x80 0x64) = -100.
Proof.
  intros x Hx. split; [apply toLittleEndian_encode; exact Hx|].
  repeat split; vm_compute; reflexivity.
Qed.

Lemma C4_roundtrip_witness :
  -32767 <= -100 <= 32767 /\ toLittleEndian (encode_like_disk (-100)) = -100.
Proof.
  split; [lia|].
  exact (proj1 (C4_roundtrip_within_sign_magnitude (-100) ltac:(lia))).
Defined.

(** C10: the codec never returns -32768, its results lie between -32767 and
    32767; the argument whose swapped value is 0x8000 ("minus zero")
    decodes to 0 as the argument 0 does, so two distinct 16-bit arguments
    share a result. *)
Theorem C10_codec_range_and_minus_zero :
  (forall x : Z, -32767 <= toLittleEndian x <= 32767)
  /\ (forall x : Z, toLittleEndian x <> -32768)
  /\ swap_octets (to_uint16 128) = 0x8000
  /\ swap_octets (to_uint16 0) = 0x0000
  /\ toLittleEndian 128 = 0
  /\ toLittleEndian 0 = 0
  /\ (exists a b : Z, -32768 <= a <= 32767 /\ -32768 <= b <= 32767
                      /\ a <> b /\ toLittleEndian a = toLittleEndian b).
Proof.
  split; [apply toLittleEndian_range|].
  split; [intros x; pose proof (toLittleEndian_range x); lia|].
  repeat split; try reflexivity.
  exists 128, 0. repeat split; try lia; reflexivity.
Qed.

(** ** The monad *)

Lemma bind_Done {A B} (m : M A) (k : A -> M B) w b w2 :
  bind m k w = Done b w2 ->
  exists a w1, m w = Done a w1 /\ k a w1 = Done b w2.
Proof.
  unfold bind. destruct (m w) as [a w1|e w1|u]; intros H; try discriminate.
  exists a, w1. split; [reflexivity|exact H].
Qed.

Lemma int_Done z : in_int z = true -> forall w, int_ z w = Done z w.
Proof. intros H w. unfold int_. rewrite H. reflexivity. Qed.

Section Split.
Context (cfg : tile_h) (env : Env).

Lemma openTile_split fileName bytes w :
  files env !! fileName = Some bytes ->
  0 <= DTED_DSI_NBLAT cfg -> 0 <= DTED_DSI_NBLON cfg ->
  openTile cfg env fileName w =
    (expectedSize <- expectedSize_of cfg (nbLat_of cfg env bytes)
                                         (nbLon_of cfg env bytes) ;;
     (if Z.of_nat (length bytes) =? expectedSize then ret tt
      else errPrintf (ErrSize expectedSize)) ;;;
     decode_body cfg env bytes) (world_at_check fileName bytes w).
Proof.
  intros Hf Hlat Hlon.
  unfold openTile, decode_body, world_at_check, nbLat_of, nbLon_of,
    header_lon, header_lat.
  cbv [bind fopen]. rewrite Hf.
  cbv [bind ret printf fseek_SET fseek_END ftell fread with_stream
       set_stream seek_to stream console f_bytes f_pos].
  rewrite (proj2 (Z.ltb_ge _ _) Hlat), (proj2 (Z.ltb_ge _ _) Hlon).
  rewrite Z.add_0_r.
  rewrite (proj2 (Z.ltb_ge (Z.of_nat (length bytes)) 0) (Nat2Z.is_nonneg _)).
  reflexivity.
Qed.
End Split.

(** ** Computations that neither exit nor print *)

Lemma quiet_ret {A} (a : A) : quiet (ret a).
Proof. intros w. cbn. auto. Qed.

Lemma quiet_undefined {A} u : quiet (@undefined A u).
Proof. intros w. exact I. Qed.

Lemma quiet_bind {A B} (m : M A) (k : A -> M B) :
  quiet m -> (forall a, quiet (k a)) -> quiet (bind m k).
Proof.
  intros Hm Hk w. unfold bind. specialize (Hm w).
  destruct (m w) as [a w1|e w1|u]; [|contradiction|exact I].
  specialize (Hk a w1). destruct (k a w1) as [b w2|e w2|u]; auto.
  destruct Hm as [Hs Hc], Hk as [Hs' Hc']. split; [auto|congruence].
Qed.

Lemma quiet_int z : quiet (int_ z).
Proof.
  unfold int_. destruct (in_int z); [apply quiet_ret|apply quiet_undefined].
Qed.

Lemma quiet_fseek_CUR off : quiet (fseek_CUR off).
Proof.
  intros w. unfold fseek_CUR, with_stream, set_stream.
  destruct (stream w); cbn; [|exact I]. split; [discriminate|reflexivity].
Qed.

Lemma quiet_fread n : quiet (fread n).
Proof.
  intros w. unfold fread, with_stream, bind, set_stream, ret.
  destruct (stream w); cbn; [|exact I]. split; [discriminate|reflexivity].
Qed.

Lemma quiet_for_loop {S} (body : Z -> S -> M S) :
  (forall i s, quiet (body i s)) ->
  forall n i s, quiet (for_loop n i body s).
Proof.
  intros Hbody. induction n as [|n IH]; intros i s; cbn [for_loop].
  - apply quiet_ret.
  - apply quiet_bind; [apply Hbody|]. intros s'. apply IH.
Qed.

Lemma quiet_store_sample nbLon i j d : quiet (store_sample nbLon i j d).
Proof.
  unfold store_sample.
  apply quiet_bind; [apply quiet_int|]. intros a.
  apply quiet_bind; [apply quiet_int|]. intros pt.
  destruct ((0 <=? pt) && (pt <? Z.of_nat (length d))).
  - apply quiet_bind; [apply quiet_fread|]. intros got. apply quiet_ret.
  - apply quiet_undefined.
Qed.

Lemma quiet_store_records nbLat nbLon d : quiet (store_records nbLat nbLon d).
Proof.
  unfold store_records. apply quiet_for_loop. intros i s.
  apply quiet_bind; [apply quiet_fseek_CUR|]. intros _.
  apply quiet_bind; [apply quiet_for_loop; intros; apply quiet_store_sample|].
  intros d'. apply quiet_bind; [apply quiet_fseek_CUR|]. intros _.
  apply quiet_ret.
Qed.

(** ** The sample array keeps its length *)

Lemma keeps_length_for_loop (body : Z -> list Z -> M (list Z)) :
  (forall i, keeps_length (body i)) ->
  forall n i, keeps_length (for_loop n i body).
Proof.
  intros Hbody. induction n as [|n IH]; intros i d w d' w' H; cbn [for_loop] in H.
  - inversion H. reflexivity.
  - apply bind_Done in H as (d1 & w1 & H1 & H2).
    apply Hbody in H1. apply IH in H2. congruence.
Qed.

Lemma keeps_length_store_sample nbLon i j : keeps_length (store_sample nbLon i j).
Proof.
  intros d w d' w' H. unfold store_sample in H.
  apply bind_Done in H as (a & w1 & _ & H).
  apply bind_Done in H as (pt & w2 & _ & H).
  destruct ((0 <=? pt) && (pt <? Z.of_nat (length d))); [|discriminate].
  apply bind_Done in H as (got & w3 & _ & H).
  inversion H. apply length_insert.
Qed.

Lemma keeps_length_store_records nbLat nbLon :
  keeps_length (store_records nbLat nbLon).
Proof.
  unfold store_records. apply keeps_length_for_loop.
  intros i d w d' w' H.
  apply bind_Done in H as (? & w1 & _ & H).
  apply bind_Done in H as (d1 & w2 & H1 & H).
  apply bind_Done in H as (? & w3 & _ & H).
  inversion H; subst.
  revert H1. apply keeps_length_for_loop. intros j. apply keeps_length_store_sample.
Qed.

(** ** The body of the decoder *)

Section Body.
Context (cfg : tile_h) (env : Env).

Lemma decode_body_Exit bytes w f e w' :
  stream w = Some f ->
  decode_body cfg env bytes w = Exit e w' ->
  (e = ErrTileAlloc \/ e = ErrDataAlloc) /\ stream w' <> None.
Proof.
  intros Hs. unfold decode_body.
  cbv [bind ret printf fseek_SET fread with_stream set_stream errPrintf
       stream console f_bytes f_pos].
  destruct w as [sw cw]. cbn in Hs. subst sw.
  destruct (tile_alloc env).
  2:{ intros H. inversion H; subst. split; [auto|discriminate]. }
  unfold int_. destruct (in_int _); cbv [ret undefined]; [|discriminate].
  destruct (data_alloc env _).
  2:{ intros H. inversion H; subst. split; [auto|discriminate]. }
  match goal with
  | |- context [store_records ?a ?b ?c ?w1] =>
      pose proof (quiet_store_records a b c w1) as Hq;
      destruct (store_records a b c w1) as [d w2|e2 w2|u]
  end; [|contradiction|discriminate].
  unfold fclose, with_stream, set_stream.
  destruct (stream w2); discriminate.
Qed.

Lemma decode_body_Done bytes w f t w' :
  stream w = Some f ->
  decode_body cfg env bytes w = Done t w' ->
  latitudeDimension t = nbLat_of cfg env bytes
  /\ longitudeDimension t = nbLon_of cfg env bytes
  /\ stream w' = None
  /\ in_int (nbLat_of cfg env bytes * nbLon_of cfg env bytes) = true
  /\ length (data t) =
       Z.to_nat (to_size_t
                   (to_size_t (nbLat_of cfg env bytes * nbLon_of cfg env bytes)
                    * 2) / 2).
Proof.
  intros Hs. unfold decode_body.
  cbv [bind ret printf fseek_SET fread with_stream set_stream errPrintf
       stream console f_bytes f_pos].
  destruct w as [sw cw]. cbn in Hs. subst sw.
  destruct (tile_alloc env); [|discriminate].
  unfold int_. destruct (in_int _) eqn:Hn; cbv [ret undefined]; [|discriminate].
  destruct (data_alloc env _); [|discriminate].
  match goal with
  | |- context [store_records ?a ?b ?c ?w1] =>
      pose proof (keeps_length_store_records a b c w1) as Hl;
      destruct (store_records a b c w1) as [d w2|e2 w2|u]
  end; try discriminate.
  specialize (Hl d w2 eq_refl).
  unfold fclose, with_stream, set_stream.
  destruct (stream w2); [|discriminate].
  intros H. inversion H; subst; clear H. cbn.
  repeat split.
  rewrite Hl, length_map, length_seq. reflexivity.
Qed.

Lemma decode_body_console bytes w p t w' :
  0 <= DTED_DSI_DATACOV cfg ->
  stream w = Some {| f_bytes := bytes; f_pos := p |} ->
  decode_body cfg env bytes w = Done t w' ->
  console w' =
    console w ++ [OutCoverage (coverage_of env (header_cov cfg env bytes))].
Proof.
  intros Hcov Hs. unfold decode_body.
  cbv [bind ret printf fseek_SET fread with_stream set_stream errPrintf
       stream console f_bytes f_pos seek_to].
  destruct w as [sw cw]. cbn in Hs. subst sw.
  rewrite (proj2 (Z.ltb_ge _ _) Hcov).
  destruct (tile_alloc env); [|discriminate].
  unfold int_. destruct (in_int _) eqn:Hn; cbv [ret undefined]; [|discriminate].
  destruct (data_alloc env _); [|discriminate].
  match goal with
  | |- context [store_records ?a ?b ?c ?w1] =>
      pose proof (quiet_store_records a b c w1) as Hq;
      destruct (store_records a b c w1) as [d w2|e2 w2|u]
  end; [|contradiction|discriminate].
  destruct Hq as [_ Hcons]. cbn in Hcons.
  unfold fclose, with_stream, set_stream.
  destruct (stream w2); [|discriminate].
  intros H. inversion H; subst; clear H. cbn.
  rewrite Hcons. reflexivity.
Qed.

End Body.

(** ** Header fields *)

Section Header.
Context (cfg : tile_h) (env : Env).

Lemma char_val_range b : -128 <= char_val env b <= 255.
Proof.
  unfold char_val. pose proof (Byte.to_N_bounded b).
  destruct (CHAR_SIGNED env); cbn [andb].
  - destruct (128 <=? Z.of_N (Byte.to_N b)) eqn:E; lia.
  - lia.
Qed.

Lemma dimension_of_range h : -195536 <= dimension_of env h <= 229977.
Proof.
  unfold dimension_of, hd.
  pose proof (char_val_range (nth 0 h x00)).
  pose proof (char_val_range (nth 1 h x00)).
  pose proof (char_val_range (nth 2 h x00)).
  pose proof (char_val_range (nth 3 h x00)).
  lia.
Qed.

Lemma dimension_of_decimal a b c d rest :
  dimension_of env (overwrite [a; b; c; d] rest)
  = decimal_value (map (char_val env) [a; b; c; d]).
Proof.
  unfold dimension_of, hd, overwrite. cbn [length app nth map decimal_value].
  change (10 ^ Z.of_nat 3) with 1000. change (10 ^ Z.of_nat 2) with 100.
  change (10 ^ Z.of_nat 1) with 10. change (10 ^ Z.of_nat 0) with 1.
  lia.
Qed.

Lemma coverage_of_decimal a b rest :
  coverage_of env (overwrite [a; b] rest)
  = effective_coverage (map (char_val env) [a; b]).
Proof.
  unfold coverage_of, effective_coverage, hd, overwrite.
  cbn [length app nth map decimal_value].
  change (10 ^ Z.of_nat 1) with 10. change (10 ^ Z.of_nat 0) with 1.
  replace ((char_val env a - 48) * 10 + ((char_val env b - 48) * 1 + 0))
    with (10 * (char_val env a - 48) + (char_val env b - 48)) by lia.
  reflexivity.
Qed.

Lemma expectedSize_of_Done nbLat nbLon w :
  -195536 <= nbLat <= 229977 ->
  in_int ((nbLat * 2 + 12) * nbLon) = true ->
  in_int (DTED_DATA cfg + (nbLat * 2 + 12) * nbLon) = true ->
  expectedSize_of cfg nbLat nbLon w
  = Done (DTED_DATA cfg + (nbLat * 2 + 12) * nbLon) w.
Proof.
  intros Hr H1 H2. unfold expectedSize_of, bind.
  rewrite int_Done by (unfold in_int, INT_MIN, INT_MAX; lia).
  rewrite int_Done by (unfold in_int, INT_MIN, INT_MAX; lia).
  rewrite (int_Done _ H1). apply int_Done, H2.
Qed.

Lemma expectedSize_of_pure nbLat nbLon w :
  (exists z, expectedSize_of cfg nbLat nbLon w = Done z w)
  \/ (exists u, expectedSize_of cfg nbLat nbLon w = Undefined u).
Proof.
  unfold expectedSize_of, bind, int_, ret, undefined.
  repeat match goal with
         | |- context [in_int ?z] => destruct (in_int z)
         end; eauto.
Qed.

(** The run of [openTile] on a file whose size is the expected one. *)
Lemma openTile_size_ok fileName bytes w :
  files env !! fileName = Some bytes ->
  0 <= DTED_DSI_NBLAT cfg -> 0 <= DTED_DSI_NBLON cfg ->
  expectedSize_of cfg (nbLat_of cfg env bytes) (nbLon_of cfg env bytes)
    (world_at_check fileName bytes w)
  = Done (Z.of_nat (length bytes)) (world_at_check fileName bytes w) ->
  openTile cfg env fileName w
  = decode_body cfg env bytes (world_at_check fileName bytes w).
Proof.
  intros Hf Hlat Hlon He.
  rewrite (openTile_split cfg env fileName bytes w Hf Hlat Hlon).
  unfold bind at 1. rewrite He.
  unfold bind at 1. rewrite Z.eqb_refl. reflexivity.
Qed.

(** Whatever the file holds, the run ends closed on return and open on
    exit. *)
Lemma openTile_stream fileName bytes w :
  files env !! fileName = Some bytes ->
  0 <= DTED_DSI_NBLAT cfg -> 0 <= DTED_DSI_NBLON cfg ->
  (forall t w', openTile cfg env fileName w = Done t w' -> stream w' = None)
  /\ (forall e w', openTile cfg env fileName w = Exit e w' ->
        stream w' <> None
        /\ (e = ErrTileAlloc \/ e = ErrDataAlloc \/ exists n, e = ErrSize n)).
Proof.
  intros Hf Hlat Hlon.
  rewrite (openTile_split cfg env fileName bytes w Hf Hlat Hlon).
  set (wc := world_at_check fileName bytes w).
  assert (Hwc : stream wc = Some {| f_bytes := bytes;
                                    f_pos := Z.of_nat (length bytes) |})
    by reflexivity.
  unfold bind at 1. unfold bind at 2.
  destruct (expectedSize_of_pure (nbLat_of cfg env bytes)
              (nbLon_of cfg env bytes) wc) as [[z Hz]|[u Hu]].
  - rewrite Hz. unfold bind.
    destruct (Z.of_nat (length bytes) =? z); cbv [ret errPrintf].
    + split.
      * intros t w' H. eapply decode_body_Done in H; [|exact Hwc]. tauto.
      * intros e w' H. eapply decode_body_Exit in H; [|exact Hwc]. tauto.
    + split; [discriminate|].
      intros e w' H. inversion H; subst. split; [discriminate|eauto].
  - rewrite Hu. split; discriminate.
Qed.

End Header.

(** ** The decoder: claims *)

(** C3: the expected size is [DTED_DATA + (nbLat * 2 + 12) * nbLon].  A file
    of exactly that length passes the check: the run continues with the
    body of the decoder and can no longer end in a size diagnostic.  A file
    of any other length ends the run in [errPrintf] with the expected size,
    and no tile is returned. *)
Theorem C3_size_check cfg env fileName bytes w :
  files env !! fileName = Some bytes ->
  0 <= DTED_DSI_NBLAT cfg ->
  0 <= DTED_DSI_NBLON cfg ->
  in_int ((nbLat_of cfg env bytes * 2 + 12) * nbLon_of cfg env bytes) = true ->
  in_int (expected_size cfg (nbLat_of cfg env bytes) (nbLon_of cfg env bytes))
  = true ->
  (Z.of_nat (length bytes)
   = expected_size cfg (nbLat_of cfg env bytes) (nbLon_of cfg env bytes) ->
   openTile cfg env fileName w
   = decode_body cfg env bytes (world_at_check fileName bytes w)
   /\ forall e w', openTile cfg env fileName w = Exit e w' ->
                   e = ErrTileAlloc \/ e = ErrDataAlloc)
  /\ (Z.of_nat (length bytes)
      <> expected_size cfg (nbLat_of cfg env bytes) (nbLon_of cfg env bytes) ->
      openTile cfg env fileName w
      = Exit (ErrSize (expected_size cfg (nbLat_of cfg env bytes)
                                         (nbLon_of cfg env bytes)))
             (world_at_check fileName bytes w)).
Proof.
  intros Hf Hlat Hlon H1 H2.
  pose proof (expectedSize_of_Done cfg (nbLat_of cfg env bytes)
                (nbLon_of cfg env bytes) (world_at_check fileName bytes w)
                (dimension_of_range env _) H1 H2) as He.
  fold (expected_size cfg (nbLat_of cfg env bytes) (nbLon_of cfg env bytes))
    in He.
  split.
  - intros Hsize. rewrite <- Hsize in He.
    pose proof (openTile_size_ok cfg env fileName bytes w Hf Hlat Hlon He) as Ho.
    split; [exact Ho|].
    intros e w' H. rewrite Ho in H.
    eapply decode_body_Exit in H; [tauto|reflexivity].
  - intros Hsize.
    rewrite (openTile_split cfg env fileName bytes w Hf Hlat Hlon).
    unfold bind at 1. rewrite He. unfold bind at 1.
    apply Z.eqb_neq in Hsize. rewrite Hsize. reflexivity.
Qed.

Lemma C3_size_check_witness :
  (forall e w', openTile dted2 (env_with file_2x2) "tile.dt2" w0 = Exit e w' ->
                e = ErrTileAlloc \/ e = ErrDataAlloc)
  /\ openTile dted2 (env_with (file_2x2 ++ [x00])) "tile.dt2" w0
     = Exit (ErrSize 3460) (world_at_check "tile.dt2" (file_2x2 ++ [x00]) w0)
  /\ openTile dted2 (env_with (removelast file_2x2)) "tile.dt2" w0
     = Exit (ErrSize 3460) (world_at_check "tile.dt2" (removelast file_2x2) w0).
Proof.
  split; [|split].
  - refine (proj2 (proj1 (C3_size_check dted2 (env_with file_2x2)
                            "tile.dt2" file_2x2 w0 _ _ _ _ _) _)).
    + vm_compute. reflexivity.
    + vm_compute. discriminate.
    + vm_compute. discriminate.
    + vm_compute. reflexivity.
    + vm_compute. reflexivity.
    + vm_compute. reflexivity.
  - refine (proj2 (C3_size_check dted2 (env_with (file_2x2 ++ [x00]))
                     "tile.dt2" (file_2x2 ++ [x00]) w0 _ _ _ _ _) _).
    + vm_compute. reflexivity.
    + vm_compute. discriminate.
    + vm_compute. discriminate.
    + vm_compute. reflexivity.
    + vm_compute. reflexivity.
    + vm_compute. discriminate.
  - refine (proj2 (C3_size_check dted2 (env_with (removelast file_2x2))
                     "tile.dt2" (removelast file_2x2) w0 _ _ _ _ _) _).
    + vm_compute. reflexivity.
    + vm_compute. discriminate.
    + vm_compute. discriminate.
    + vm_compute. reflexivity.
    + vm_compute. reflexivity.
    + vm_compute. discriminate.
Defined.

(** C7 as stated fails: on a file one octet too long the run opens the
    file and ends in [errPrintf] with the stream still open. *)
Lemma C7_exit_leaves_stream_open :
  files (env_with (file_2x2 ++ [x00])) !! "tile.dt2"%string
  = Some (file_2x2 ++ [x00])
  /\ exists e w',
       openTile dted2 (env_with (file_2x2 ++ [x00])) "tile.dt2" w0 = Exit e w'
       /\ stream w' <> None.
Proof.
  split; [vm_compute; reflexivity|].
  eexists _, _. split; [vm_compute; reflexivity|]. discriminate.
Qed.

(** C7, amended: once the file is open, [openTile] closes it on its return
    and only there: a run that returns a tile leaves the stream closed, and a
    run that ends in [errPrintf] (size mismatch, allocation failure) ends
    with the stream still open. *)
Theorem C7_stream_closed_on_return_only cfg env fileName bytes w :
  files env !! fileName = Some bytes ->
  0 <= DTED_DSI_NBLAT cfg ->
  0 <= DTED_DSI_NBLON cfg ->
  (forall t w', openTile cfg env fileName w = Done t w' -> stream w' = None)
  /\ (forall e w', openTile cfg env fileName w = Exit e w' ->
        stream w' <> None
        /\ (e = ErrTileAlloc \/ e = ErrDataAlloc \/ exists n, e = ErrSize n)).
Proof. apply openTile_stream. Qed.

Lemma C7_stream_closed_witness :
  exists t w',
    openTile dted2 (env_with file_2x2) "tile.dt2" w0 = Done t w'
    /\ stream w' = None.
Proof.
  eexists _, _. split; [vm_compute; reflexivity|].
  refine (proj1 (C7_stream_closed_on_return_only dted2 (env_with file_2x2)
                   "tile.dt2" file_2x2 w0 _ _ _) _ _ _).
  - vm_compute. reflexivity.
  - vm_compute. discriminate.
  - vm_compute. discriminate.
  - vm_compute. reflexivity.
Defined.

(** C8: the two characters of the coverage field are read as a two-digit
    decimal number and 0 is replaced by 100: ["00"] gives 100 and ["37"]
    gives 37; a run that returns has printed that value for the field it
    found in the file. *)
Theorem C8_coverage_decoding cfg env :
  (forall a b rest,
      coverage_of env (overwrite [a; b] rest)
      = effective_coverage (map (char_val env) [a; b]))
  /\ coverage_of env (bytes_of "00") = 100
  /\ coverage_of env (bytes_of "37") = 37
  /\ (forall fileName bytes w a b t w',
        files env !! fileName = Some bytes ->
        0 <= DTED_DSI_NBLAT cfg -> 0 <= DTED_DSI_NBLON cfg ->
        0 <= DTED_DSI_DATACOV cfg ->
        file_field bytes (DTED_DSI_DATACOV cfg) 2 = [a; b] ->
        openTile cfg env fileName w = Done t w' ->
        console w' =
          console w ++ [OutOpening fileName;
                        OutSize (Z.of_nat (length bytes));
                        OutCoverage
                          (effective_coverage (map (char_val env) [a; b]))]).
Proof.
  split; [apply coverage_of_decimal|].
  split; [unfold coverage_of, hd, char_val; destruct (CHAR_SIGNED env); reflexivity|].
  split; [unfold coverage_of, hd, char_val; destruct (CHAR_SIGNED env); reflexivity|].
  intros fileName bytes w a b t w' Hf Hlat Hlon Hcov Hab H.
  rewrite (openTile_split cfg env fileName bytes w Hf Hlat Hlon) in H.
  apply bind_Done in H as (z & w1 & Hz & H).
  apply bind_Done in H as (? & w2 & Hc & H).
  destruct (expectedSize_of_pure cfg (nbLat_of cfg env bytes)
              (nbLon_of cfg env bytes) (world_at_check fileName bytes w))
    as [[z' Hz']|[u Hu]]; [|congruence].
  rewrite Hz' in Hz. inversion Hz; subst z' w1; clear Hz.
  destruct (Z.of_nat (length bytes) =? z); [|discriminate].
  inversion Hc; subst w2; clear Hc.
  eapply decode_body_console in H; [|exact Hcov|reflexivity].
  rewrite H. unfold header_cov. rewrite Hab, coverage_of_decimal.
  cbn [world_at_check console]. rewrite <- !app_assoc. reflexivity.
Qed.

(** C9: each four-character dimension field is read as the sum of
    [(digit - '0') * 10^place], whatever the characters are: ["0121"] gives
    121 and ["9999"] gives 9999, and characters that are not digits are
    taken through the same arithmetic; the tile a run returns carries the
    two numbers read this way. *)
Theorem C9_dimension_decoding cfg env :
  (forall a b c d rest,
      dimension_of env (overwrite [a; b; c; d] rest)
      = decimal_value (map (char_val env) [a; b; c; d]))
  /\ dimension_of env (bytes_of "0121") = 121
  /\ dimension_of env (bytes_of "9999") = 9999
  /\ dimension_of env (bytes_of "00:0") = 100
  /\ dimension_of env (bytes_of "    ") = -17776
  /\ (forall fileName bytes w a b c d a' b' c' d' t w',
        files env !! fileName = Some bytes ->
        0 <= DTED_DSI_NBLAT cfg -> 0 <= DTED_DSI_NBLON cfg ->
        file_field bytes (DTED_DSI_NBLAT cfg) 4 = [a; b; c; d] ->
        file_field bytes (DTED_DSI_NBLON cfg) 4 = [a'; b'; c'; d'] ->
        openTile cfg env fileName w = Done t w' ->
        latitudeDimension t = decimal_value (map (char_val env) [a; b; c; d])
        /\ longitudeDimension t
           = decimal_value (map (char_val env) [a'; b'; c'; d'])).
Proof.
  split; [apply dimension_of_decimal|].
  do 4 (split; [unfold dimension_of, hd, char_val;
                destruct (CHAR_SIGNED env); reflexivity|]).
  intros fileName bytes w a b c d a' b' c' d' t w' Hf Hlat Hlon Ha Ha' H.
  rewrite (openTile_split cfg env fileName bytes w Hf Hlat Hlon) in H.
  apply bind_Done in H as (z & w1 & Hz & H).
  apply bind_Done in H as (? & w2 & Hc & H).
  destruct (expectedSize_of_pure cfg (nbLat_of cfg env bytes)
              (nbLon_of cfg env bytes) (world_at_check fileName bytes w))
    as [[z' Hz']|[u Hu]]; [|congruence].
  rewrite Hz' in Hz. inversion Hz; subst z' w1; clear Hz.
  destruct (Z.of_nat (length bytes) =? z); [|discriminate].
  inversion Hc; subst w2; clear Hc.
  eapply decode_body_Done in H; [|reflexivity].
  destruct H as (Hl & Hn & _).
  rewrite Hl, Hn. unfold nbLat_of, nbLon_of, header_lon, header_lat.
  rewrite Ha, Ha', !dimension_of_decimal. split; reflexivity.
Qed.

Lemma C8_coverage_decoding_witness :
  exists t w',
    openTile dted2 (env_with file_1x1) "tile.dt2" w0 = Done t w'
    /\ console w' = [OutOpening "tile.dt2"; OutSize 3442; OutCoverage 37].
Proof.
  assert (Hrun : exists t w',
             openTile dted2 (env_with file_1x1) "tile.dt2" w0 = Done t w')
    by (eexists _, _; vm_compute; reflexivity).
  destruct Hrun as (t & w' & Hrun). exists t, w'. split; [exact Hrun|].
  refine (proj2 (proj2 (proj2 (C8_coverage_decoding dted2 (env_with file_1x1))))
            "tile.dt2"%string file_1x1 w0 "3"%byte "7"%byte t w' _ _ _ _ _ Hrun).
  - vm_compute. reflexivity.
  - vm_compute. discriminate.
  - vm_compute. discriminate.
  - vm_compute. discriminate.
  - vm_compute. reflexivity.
Defined.

Lemma C9_dimension_decoding_witness :
  exists t w',
    openTile dted2 (env_with file_2x2) "tile.dt2" w0 = Done t w'
    /\ latitudeDimension t = 2 /\ longitudeDimension t = 2.
Proof.
  assert (Hrun : exists t w',
             openTile dted2 (env_with file_2x2) "tile.dt2" w0 = Done t w')
    by (eexists _, _; vm_compute; reflexivity).
  destruct Hrun as (t & w' & Hrun). exists t, w'. split; [exact Hrun|].
  refine (proj2 (proj2 (proj2 (proj2 (proj2
            (C9_dimension_decoding dted2 (env_with file_2x2))))))
            "tile.dt2"%string file_2x2 w0
            "0"%byte "0"%byte "0"%byte "2"%byte
            "0"%byte "0"%byte "0"%byte "2"%byte t w' _ _ _ _ _ Hrun).
  - vm_compute. reflexivity.
  - vm_compute. discriminate.
  - vm_compute. discriminate.
  - vm_compute. reflexivity.
  - vm_compute. reflexivity.
Defined.

(** The array of a returned tile has as many elements as the product of
    the two dimensions. *)
Lemma openTile_buffer_length cfg env fileName bytes w t w' :
  files env !! fileName = Some bytes ->
  0 <= DTED_DSI_NBLAT cfg -> 0 <= DTED_DSI_NBLON cfg ->
  openTile cfg env fileName w = Done t w' ->
  0 <= latitudeDimension t * longitudeDimension t ->
  length (data t) = Z.to_nat (latitudeDimension t * longitudeDimension t).
Proof.
  intros Hf Hlat Hlon H Hpos.
  rewrite (openTile_split cfg env fileName bytes w Hf Hlat Hlon) in H.
  apply bind_Done in H as (z & w1 & Hz & H).
  apply bind_Done in H as (? & w2 & Hc & H).
  destruct (expectedSize_of_pure cfg (nbLat_of cfg env bytes)
              (nbLon_of cfg env bytes) (world_at_check fileName bytes w))
    as [[z' Hz']|[u Hu]]; [|congruence].
  rewrite Hz' in Hz. inversion Hz; subst z' w1; clear Hz.
  destruct (Z.of_nat (length bytes) =? z); [|discriminate].
  inversion Hc; subst w2; clear Hc.
  eapply decode_body_Done in H; [|reflexivity].
  destruct H as (Hl & Hn & _ & Hin & Hlen).
  rewrite Hlen, Hl, Hn. rewrite Hl, Hn in Hpos.
  set (n := nbLat_of cfg env bytes * nbLon_of cfg env bytes) in *.
  unfold in_int, INT_MIN, INT_MAX in Hin.
  apply andb_prop in Hin as [_ Hmax]. apply Z.leb_le in Hmax.
  unfold to_size_t.
  rewrite (Z.mod_small n) by lia. rewrite (Z.mod_small (n * 2)) by lia.
  rewrite Z.div_mul by lia. reflexivity.
Qed.

(** With fewer latitude posts than longitude posts, the index of the last
    sample of the last record is outside the array. *)
Lemma store_sample_last_outside L N d w :
  1 <= L < N -> N <= 9999 ->
  Z.of_nat (length d) = L * N ->
  store_sample N (N - 1) (L - 1) d w
  = Undefined (OutOfBounds ((N - 1) * N + (L - 1)) (L * N)).
Proof.
  intros HL HN Hd. unfold store_sample, bind.
  rewrite int_Done by (unfold in_int, INT_MIN, INT_MAX; nia).
  rewrite int_Done by (unfold in_int, INT_MIN, INT_MAX; nia).
  rewrite Hd.
  assert (Hout : ((N - 1) * N + (L - 1) <? L * N) = false)
    by (apply Z.ltb_ge; nia).
  rewrite Hout, andb_false_r. reflexivity.
Qed.

(** C1, on the code: the array of a returned tile has [L * N] elements,
    but the samples are stored at [lonIndex * N + latIndex], which leaves
    the array as soon as [L < N]: the last sample of the last record has an
    index of [L * N] or more.  For the tile with one latitude post and two
    longitude posts the array has 2 elements and the run of [openTile]
    stores the sample of longitude index 1 and latitude index 0 at index
    [1 * 2 + 0 = 2]. *)
Theorem C1_store_outside_buffer :
  (forall cfg env fileName bytes w t w',
      files env !! fileName = Some bytes ->
      0 <= DTED_DSI_NBLAT cfg -> 0 <= DTED_DSI_NBLON cfg ->
      openTile cfg env fileName w = Done t w' ->
      0 <= latitudeDimension t * longitudeDimension t ->
      length (data t) = Z.to_nat (latitudeDimension t * longitudeDimension t))
  /\ (forall L N d w,
         1 <= L < N -> N <= 9999 ->
         Z.of_nat (length d) = L * N ->
         L * N <= (N - 1) * N + (L - 1)
         /\ store_sample N (N - 1) (L - 1) d w
            = Undefined (OutOfBounds ((N - 1) * N + (L - 1)) (L * N)))
  /\ nbLat_of dted2 (env_with file_1x2) file_1x2 = 1
  /\ nbLon_of dted2 (env_with file_1x2) file_1x2 = 2
  /\ Z.of_nat (length file_1x2) = expected_size dted2 1 2
  /\ openTile dted2 (env_with file_1x2) "tile.dt2" w0
     = Undefined (OutOfBounds 2 2).
Proof.
  split; [exact openTile_buffer_length|].
  split.
  - intros L N d w HL HN Hd. split; [nia|].
    apply store_sample_last_outside; assumption.
  - repeat split; vm_compute; reflexivity.
Qed.

(** ** The container *)

Lemma string_length_append s1 s2 :
  String.length (String.append s1 s2)
  = (String.length s1 + String.length s2)%nat.
Proof.
  induction s1 as [|c s1 IH]; [reflexivity|].
  change (S (String.length (String.append s1 s2))
          = S (String.length s1 + String.length s2)).
  f_equal. exact IH.
Qed.

Lemma two_digit_checked :
  check_from (fun d => String.eqb (fmt_0d 2 d) (two_digit d)) 0 100 = true.
Proof. vm_compute. reflexivity. Qed.

Lemma three_digit_checked :
  check_from (fun d => String.eqb (fmt_0d 3 d) (three_digit d)) 0 1000 = true.
Proof. vm_compute. reflexivity. Qed.

Lemma fmt_0d_two_digit d : 0 <= d <= 99 -> fmt_0d 2 d = two_digit d.
Proof.
  intros Hd. apply String.eqb_eq.
  apply (check_from_spec _ _ _ two_digit_checked). lia.
Qed.

Lemma fmt_0d_three_digit d : 0 <= d <= 999 -> fmt_0d 3 d = three_digit d.
Proof.
  intros Hd. apply String.eqb_eq.
  apply (check_from_spec _ _ _ three_digit_checked). lia.
Qed.

(** The conversion of the code discards the fraction of the exact value. *)
Lemma double_to_int_truncate x t w :
  truncate x = Some t -> in_int t = true -> double_to_int x w = Done t w.
Proof.
  destruct x as [s|s| |s m e]; cbn [truncate double_to_int]; try discriminate.
  - intros H _. inversion H. reflexivity.
  - intros H Hin. injection H as Ht.
    assert (Heq : (if s then - (if 0 <=? e then Z.pos m * 2 ^ e
                                 else Z.pos m / 2 ^ (- e))
                   else (if 0 <=? e then Z.pos m * 2 ^ e
                         else Z.pos m / 2 ^ (- e))) = t).
    { rewrite <- Ht. destruct (0 <=? e) eqn:He.
      - apply Z.leb_le in He.
        rewrite (Z.max_l e 0) by lia. rewrite (Z.max_r (- e) 0) by lia.
        change (2 ^ 0) with 1. rewrite Z.quot_1_r.
        destruct s; [|reflexivity].
        change (Z.neg m) with (- Z.pos m). lia.
      - apply Z.leb_gt in He.
        rewrite (Z.max_r e 0) by lia. rewrite (Z.max_l (- e) 0) by lia.
        change (2 ^ 0) with 1. rewrite Z.mul_1_r.
        assert (Hp : 0 < 2 ^ (- e)) by (apply Z.pow_pos_nonneg; lia).
        destruct s.
        + change (Z.neg m) with (- Z.pos m).
          rewrite Z.quot_opp_l by lia.
          rewrite Z.quot_div_nonneg by lia. reflexivity.
        + rewrite Z.quot_div_nonneg by lia. reflexivity. }
    rewrite Heq, Hin. reflexivity.
Qed.

(** The comparison [x > 0] of the code is the sign of the exact value. *)
Lemma double_gt0_above_zero x : double_gt0 x = above_zero x.
Proof.
  destruct x as [s|s| |s m e]; try reflexivity.
  - destruct s; reflexivity.
  - unfold double_gt0, above_zero, SFltb, SFcompare.
    assert (Hp : 0 < 2 ^ Z.max e 0) by (apply Z.pow_pos_nonneg; lia).
    destruct s; symmetry.
    + apply Z.ltb_ge. change (Z.neg m) with (- Z.pos m). nia.
    + apply Z.ltb_lt. nia.
Qed.

Lemma origin_fileName_spec cfg originLon originLat tlon tlat w :
  truncate originLon = Some tlon ->
  truncate originLat = Some tlat ->
  -998 <= tlon <= 999 ->
  -98 <= tlat <= 99 ->
  (String.length (DATA_DIR cfg) <= 14)%nat ->
  exists name,
    dted_name originLon originLat = Some name
    /\ origin_fileName cfg originLon originLat w
       = Done (String.append (DATA_DIR cfg) name) w.
Proof.
  intros Hlon Hlat Rlon Rlat Hdir.
  unfold dted_name. rewrite Hlon, Hlat, <- !double_gt0_above_zero.
  eexists. split; [reflexivity|].
  unfold origin_fileName, bind.
  rewrite (double_to_int_truncate _ _ _ Hlon)
    by (unfold in_int, INT_MIN, INT_MAX; lia).
  assert (Hdeg : forall t, -998 <= t <= 999 ->
            (if 0 <? t then ret t
             else bind (int_ (t - 1)) (fun u => int_ (- u))) w
            = Done (degree_magnitude t) w).
  { intros t Ht. unfold degree_magnitude.
    destruct (0 <? t) eqn:E.
    - apply Z.ltb_lt in E. rewrite (proj2 (Z.leb_gt _ _)) by lia. reflexivity.
    - apply Z.ltb_ge in E. rewrite (proj2 (Z.leb_le _ _)) by lia.
      unfold bind.
      rewrite int_Done by (unfold in_int, INT_MIN, INT_MAX; lia).
      apply int_Done. unfold in_int, INT_MIN, INT_MAX. lia. }
  unfold bind in Hdeg. rewrite (Hdeg tlon Rlon).
  rewrite (double_to_int_truncate _ _ _ Hlat)
    by (unfold in_int, INT_MIN, INT_MAX; lia).
  rewrite (Hdeg tlat) by lia.
  assert (Dlon : 0 <= degree_magnitude tlon <= 999)
    by (unfold degree_magnitude; destruct (tlon <=? 0) eqn:E;
        [apply Z.leb_le in E|apply Z.leb_gt in E]; lia).
  assert (Dlat : 0 <= degree_magnitude tlat <= 99)
    by (unfold degree_magnitude; destruct (tlat <=? 0) eqn:E;
        [apply Z.leb_le in E|apply Z.leb_gt in E]; lia).
  rewrite (fmt_0d_two_digit _ Dlat), (fmt_0d_three_digit _ Dlon).
  match goal with
  | |- (if ?c then _ else _) _ = _ => assert (Hc : c = true)
  end.
  { apply Z.leb_le. rewrite string_length_append.
    set (n := String.length (DATA_DIR cfg)) in *.
    cbv [String.length String.append two_digit three_digit]. lia. }
  rewrite Hc. reflexivity.
Qed.

(** C5: the name of the file of the origin.  The hemisphere letters are
    [n] or [e] for a coordinate above zero and [s] or [w] otherwise; each
    degree is the coordinate truncated toward zero, replaced by
    [-(truncated - 1)] when that is zero or below; the name is the latitude
    letter, the latitude degree on two digits, [_], the longitude letter,
    the longitude degree on three digits and [_1arc_v3.dt2], after the data
    directory.  [initSpace] opens the file of that name.  The origin
    (-3.2, -48.2) gives [s49_w004_1arc_v3.dt2]; (2.5, 48.8) gives
    [n48_e002_1arc_v3.dt2], (0, 0) gives [s01_w001_1arc_v3.dt2], and the
    origins of mixed signs take one letter of each kind. *)
Theorem C5_origin_fileName cfg env originLon originLat tlon tlat w :
  truncate originLon = Some tlon ->
  truncate originLat = Some tlat ->
  -998 <= tlon <= 999 ->
  -98 <= tlat <= 99 ->
  (String.length (DATA_DIR cfg) <= 14)%nat ->
  (exists name,
      dted_name originLon originLat = Some name
      /\ origin_fileName cfg originLon originLat w
         = Done (String.append (DATA_DIR cfg) name) w
      /\ (space_alloc env = true ->
          files env !! String.append (DATA_DIR cfg) name = None ->
          initSpace cfg env originLon originLat w
          = Exit (ErrOpen (String.append (DATA_DIR cfg) name)) w))
  /\ dted_name d_m3_2 d_m48_2 = Some "s49_w004_1arc_v3.dt2"%string
  /\ dted_name d_2_5 d_48_8 = Some "n48_e002_1arc_v3.dt2"%string
  /\ dted_name d_0 d_0 = Some "s01_w001_1arc_v3.dt2"%string
  /\ dted_name d_2_5 d_m48_2 = Some "s49_e002_1arc_v3.dt2"%string
  /\ dted_name d_m3_2 d_48_8 = Some "n48_w004_1arc_v3.dt2"%string
  /\ origin_fileName dted2 d_m3_2 d_m48_2 w0
     = Done "data/s49_w004_1arc_v3.dt2"%string w0
  /\ origin_fileName dted2 d_2_5 d_48_8 w0
     = Done "data/n48_e002_1arc_v3.dt2"%string w0
  /\ origin_fileName dted2 d_0 d_0 w0
     = Done "data/s01_w001_1arc_v3.dt2"%string w0
  /\ origin_fileName dted2 d_2_5 d_m48_2 w0
     = Done "data/s49_e002_1arc_v3.dt2"%string w0
  /\ origin_fileName dted2 d_m3_2 d_48_8 w0
     = Done "data/n48_w004_1arc_v3.dt2"%string w0.
Proof.
  intros Hlon Hlat Rlon Rlat Hdir.
  split; [|repeat split; vm_compute; reflexivity].
  destruct (origin_fileName_spec cfg originLon originLat tlon tlat w
              Hlon Hlat Rlon Rlat Hdir) as (name & Hname & Hrun).
  exists name. split; [exact Hname|]. split; [exact Hrun|].
  intros Halloc Hnone. unfold initSpace. unfold bind at 1.
  rewrite Halloc. cbv [ret]. unfold bind at 1. rewrite Hrun.
  unfold openTile. unfold bind at 1. unfold bind at 1.
  unfold fopen. rewrite Hnone. reflexivity.
Qed.

Lemma C5_origin_fileName_witness :
  origin_fileName dted2 d_m3_2 d_m48_2 w0
  = Done "data/s49_w004_1arc_v3.dt2"%string w0
  /\ origin_fileName dted2 d_2_5 d_48_8 w0
     = Done "data/n48_e002_1arc_v3.dt2"%string w0.
Proof.
  split.
  - destruct (C5_origin_fileName dted2 (env_with []) d_m3_2 d_m48_2
                (-3) (-48) w0)
      as [(name & Hname & Hrun & _) (Hex & _)].
    + vm_compute. reflexivity.
    + vm_compute. reflexivity.
    + lia.
    + lia.
    + vm_compute. lia.
    + rewrite Hex in Hname. injection Hname as <-. exact Hrun.
  - destruct (C5_origin_fileName dted2 (env_with []) d_2_5 d_48_8 2 48 w0)
      as [(name & Hname & Hrun & _) (_ & Hex & _)].
    + vm_compute. reflexivity.
    + vm_compute. reflexivity.
    + lia.
    + lia.
    + vm_compute. lia.
    + rewrite Hex in Hname. injection Hname as <-. exact Hrun.
Defined.

(** C6: when [initSpace] returns, the centre slot of [tiles] holds the tile
    decoded from the file of the origin and every other slot is null; when
    the decoder does not return a tile, [initSpace] returns no space, and a
    fatal exit of the decoder is the exit of [initSpace]. *)
Theorem C6_only_centre_slot cfg env originLon originLat w :
  (forall sp w',
      initSpace cfg env originLon originLat w = Done sp w' ->
      length (tiles sp) = Z.to_nat (SIZE_SPACE cfg)
      /\ (exists fileName w1 t,
             origin_fileName cfg originLon originLat w = Done fileName w1
             /\ openTile cfg env fileName w1 = Done t w'
             /\ tiles sp !! Z.to_nat (Z.quot (SIZE_SPACE cfg) 2)
                = Some (Some t))
      /\ (forall i : nat,
             i <> Z.to_nat (Z.quot (SIZE_SPACE cfg) 2) ->
             (i < Z.to_nat (SIZE_SPACE cfg))%nat ->
             tiles sp !! i = Some None))
  /\ (forall fileName w1,
         origin_fileName cfg originLon originLat w = Done fileName w1 ->
         (forall t w', openTile cfg env fileName w1 <> Done t w') ->
         forall sp w', initSpace cfg env originLon originLat w <> Done sp w')
  /\ (forall fileName w1 e w',
         space_alloc env = true ->
         origin_fileName cfg originLon originLat w = Done fileName w1 ->
         openTile cfg env fileName w1 = Exit e w' ->
         initSpace cfg env originLon originLat w = Exit e w').
Proof.
  split; [|split].
  - intros sp w' H. unfold initSpace in H.
    apply bind_Done in H as (? & wa & Ha & H).
    destruct (space_alloc env); [|discriminate].
    inversion Ha; subst wa; clear Ha.
    apply bind_Done in H as (fileName & w1 & Hname & H).
    apply bind_Done in H as (t & w2 & Ht & H).
    destruct ((0 <=? Z.quot (SIZE_SPACE cfg) 2)
              && (Z.quot (SIZE_SPACE cfg) 2 <? SIZE_SPACE cfg)) eqn:Hc;
      [|discriminate].
    apply andb_prop in Hc as [Hc1 Hc2].
    apply Z.leb_le in Hc1. apply Z.ltb_lt in Hc2.
    inversion H; subst; clear H. cbn [tiles].
    split; [rewrite length_insert, length_replicate; reflexivity|].
    split.
    + exists fileName, w1, t. split; [exact Hname|]. split; [exact Ht|].
      apply list_lookup_insert_eq. rewrite length_replicate. lia.
    + intros i Hi Hlt. rewrite list_lookup_insert_ne by congruence.
      apply lookup_replicate_2. exact Hlt.
  - intros fileName w1 Hname Hno sp w' H. unfold initSpace in H.
    apply bind_Done in H as (? & wa & Ha & H).
    destruct (space_alloc env); [|discriminate].
    inversion Ha; subst wa; clear Ha.
    apply bind_Done in H as (fileName' & w1' & Hname' & H).
    apply bind_Done in H as (t & w2 & Ht & H).
    rewrite Hname in Hname'. inversion Hname'; subst.
    exact (Hno _ _ Ht).
  - intros fileName w1 e w' Halloc Hname Ht.
    unfold initSpace. unfold bind at 1. rewrite Halloc. cbv [ret].
    unfold bind at 1. rewrite Hname. unfold bind at 1. rewrite Ht. reflexivity.
Qed.

Lemma C6_only_centre_slot_witness :
  exists sp w',
    initSpace dted2
      (env_of {[ "data/s49_w004_1arc_v3.dt2"%string := file_2x2 ]})
      d_m3_2 d_m48_2 w0 = Done sp w'
    /\ length (tiles sp) = 9%nat
    /\ (exists t, tiles sp !! 4%nat = Some (Some t))
    /\ forall i : nat, i <> 4%nat -> (i < 9)%nat -> tiles sp !! i = Some None.
Proof.
  assert (Hrun : exists sp w',
             initSpace dted2
               (env_of {[ "data/s49_w004_1arc_v3.dt2"%string := file_2x2 ]})
               d_m3_2 d_m48_2 w0 = Done sp w')
    by (eexists _, _; vm_compute; reflexivity).
  destruct Hrun as (sp & w' & Hrun). exists sp, w'. split; [exact Hrun|].
  destruct (proj1 (C6_only_centre_slot dted2 _ d_m3_2 d_m48_2 w0) sp w' Hrun)
    as (Hlen & (fileName & w1 & t & _ & _ & Hcentre) & Hothers).
  split; [exact Hlen|]. split; [exists t; exact Hcentre|exact Hothers].
Defined.

(** A run of [initSpace] that returns, and two that do not: the file of the
    origin is missing, or has a wrong size. *)
Example initSpace_runs :
  let name := "data/s49_w004_1arc_v3.dt2"%string in
  initSpace dted2 (env_of {[ name := file_2x2 ]}) d_m3_2 d_m48_2 w0
  = Done {| originLon := d_m3_2;
            originLat := d_m48_2;
            tiles := [None; None; None; None;
                      Some {| latitudeDimension := 2;
                              longitudeDimension := 2;
                              data := [100; -100; 0; 0] |};
                      None; None; None; None] |}
         {| stream := None;
            console := [OutOpening name; OutSize 3460; OutCoverage 100] |}
  /\ initSpace dted2 (env_with file_2x2) d_m3_2 d_m48_2 w0
     = Exit (ErrOpen name) w0
  /\ initSpace dted2 (env_of {[ name := file_2x2 ++ [x00] ]}) d_m3_2 d_m48_2 w0
     = Exit (ErrSize 3460) (world_at_check name (file_2x2 ++ [x00]) w0).
Proof. repeat split; vm_compute; reflexivity. Qed.

(** Runs of [openTile] on the sample files. *)
Example openTile_runs :
  openTile dted2 (env_with file_1x1) "tile.dt2" w0
  = Done {| latitudeDimension := 1; longitudeDimension := 1; data := [100] |}
         {| stream := None;
            console := [OutOpening "tile.dt2"; OutSize 3442; OutCoverage 37] |}
  /\ openTile dted2 (env_with file_2x2) "tile.dt2" w0
     = Done {| latitudeDimension := 2; longitudeDimension := 2;
               data := [100; -100; 0; 0] |}
            {| stream := None;
               console := [OutOpening "tile.dt2"; OutSize 3460;
                           OutCoverage 100] |}
  /\ openTile dted2 (env_with file_2x2) "other.dt2" w0
     = Exit (ErrOpen "other.dt2") w0.
Proof. repeat split; vm_compute; reflexivity. Qed.

(** * Further properties of the code *)

(** ** The data loop *)

Lemma file_field_two bytes p :
  0 <= p -> p + 2 <= Z.of_nat (length bytes) ->
  exists b0 b1, file_field bytes p 2 = [b0; b1].
Proof.
  intros Hp Hlen. unfold file_field.
  assert (Hl : length (take 2 (drop (Z.to_nat p) bytes)) = 2%nat)
    by (rewrite length_take, length_drop; lia).
  destruct (take 2 (drop (Z.to_nat p) bytes)) as [|b0 [|b1 [|b2 l]]];
    try discriminate.
  eauto.
Qed.

Lemma store_sample_Done N i j d bytes p out :
  in_int (i * N) = true -> in_int (i * N + j) = true ->
  0 <= i * N + j < Z.of_nat (length d) ->
  0 <= p -> p + 2 <= Z.of_nat (length bytes) ->
  store_sample N i j d (at_pos bytes p out)
  = Done (<[Z.to_nat (i * N + j) := file_sample bytes p]> d)
         (at_pos bytes (p + 2) out).
Proof.
  intros H1 H2 Hpt Hp Hlen. unfold store_sample, bind.
  rewrite (int_Done _ H1), (int_Done _ H2).
  assert (Hc : (0 <=? i * N + j) && (i * N + j <? Z.of_nat (length d)) = true)
    by (apply andb_true_intro; split; [apply Z.leb_le|apply Z.ltb_lt]; lia).
  rewrite Hc.
  unfold fread, with_stream, bind, set_stream, ret, at_pos.
  cbn [stream console f_bytes f_pos].
  destruct (file_field_two bytes p Hp Hlen) as (b0 & b1 & Hf).
  unfold file_sample. rewrite Hf. reflexivity.
Qed.

(** The samples of one record: [n] stores from latitude index [j] on. *)
Lemma inner_loop_run N i bytes out :
  in_int (i * N) = true ->
  forall n j d p,
    0 <= i * N + j ->
    i * N + j + Z.of_nat n <= Z.of_nat (length d) ->
    Z.of_nat (length d) <= INT_MAX ->
    0 <= p -> p + 2 * Z.of_nat n <= Z.of_nat (length bytes) ->
    exists d',
      for_loop n j (store_sample N i) d (at_pos bytes p out)
      = Done d' (at_pos bytes (p + 2 * Z.of_nat n) out)
      /\ length d' = length d
      /\ (forall k : nat,
             Z.of_nat k < i * N + j \/ i * N + j + Z.of_nat n <= Z.of_nat k ->
             d' !! k = d !! k)
      /\ (forall q, 0 <= q < Z.of_nat n ->
             d' !! Z.to_nat (i * N + j + q)
             = Some (file_sample bytes (p + 2 * q))).
Proof.
  intros Hi. induction n as [|n IH]; intros j d p Hlo Hhi Hmax Hp Hlen.
  - exists d. cbn [for_loop]. unfold ret.
    replace (p + 2 * Z.of_nat 0) with p by lia.
    repeat split; intros; try reflexivity; lia.
  - cbn [for_loop]. unfold bind.
    rewrite store_sample_Done;
      [|exact Hi|unfold in_int, INT_MIN, INT_MAX in *; lia|lia|lia|lia].
    set (d1 := <[Z.to_nat (i * N + j) := file_sample bytes p]> d).
    assert (Hl1 : length d1 = length d) by apply length_insert.
    destruct (IH (j + 1) d1 (p + 2)) as (d' & Hrun & Hl & Hout & Hin);
      [lia|rewrite Hl1; lia|rewrite Hl1; lia|lia|lia|].
    exists d'. split.
    { rewrite Hrun. f_equal. f_equal. lia. }
    split; [congruence|]. split.
    + intros k Hk. rewrite Hout by lia.
      apply list_lookup_insert_ne. lia.
    + intros q Hq. destruct (Z.eq_dec q 0) as [->|Hq0].
      * rewrite Z.add_0_r, Z.mul_0_r, Z.add_0_r.
        rewrite Hout by lia.
        apply list_lookup_insert_eq. lia.
      * specialize (Hin (q - 1) ltac:(lia)).
        replace (i * N + (j + 1) + (q - 1)) with (i * N + j + q) in Hin by lia.
        replace (p + 2 + 2 * (q - 1)) with (p + 2 * q) in Hin by lia.
        exact Hin.
Qed.

Lemma ret_Done {A} (a : A) w : ret a w = Done a w.
Proof. reflexivity. Qed.

Lemma fseek_CUR_at bytes p out off :
  0 <= p + off ->
  fseek_CUR off (at_pos bytes p out) = Done tt (at_pos bytes (p + off) out).
Proof.
  intros H. unfold fseek_CUR, with_stream, set_stream, seek_to, at_pos.
  cbn [stream console f_bytes f_pos].
  rewrite (proj2 (Z.ltb_ge _ _) H). reflexivity.
Qed.

(** The records from longitude index [i] on, [m] of them. *)
Lemma outer_loop_run L N bytes out :
  0 <= L -> 0 <= N ->
  forall m i d,
    0 <= i ->
    (forall i', i <= i' < i + Z.of_nat m -> i' * N + L <= Z.of_nat (length d)) ->
    Z.of_nat (length d) <= INT_MAX ->
    3428 + (i + Z.of_nat m) * (L * 2 + 12) <= Z.of_nat (length bytes) ->
    exists d',
      for_loop m i (fun i d =>
          fseek_CUR 8 ;;;
          d' <- for_loop (Z.to_nat L) 0 (store_sample N i) d ;;
          fseek_CUR 4 ;;;
          ret d') d (at_pos bytes (3428 + i * (L * 2 + 12)) out)
      = Done d' (at_pos bytes (3428 + (i + Z.of_nat m) * (L * 2 + 12)) out)
      /\ length d' = length d
      /\ (m = 0%nat -> d' = d)
      /\ (forall k : nat,
             Z.of_nat k < i * N
             \/ (i + Z.of_nat m) * N - N + L <= Z.of_nat k ->
             d' !! k = d !! k)
      /\ (forall i' j,
             i <= i' < i + Z.of_nat m -> 0 <= j < L ->
             j < N \/ i' = i + Z.of_nat m - 1 ->
             d' !! Z.to_nat (i' * N + j)
             = Some (file_sample bytes (sample_offset L i' j))).
Proof.
  intros HL HN. induction m as [|m IH]; intros i d Hi Hidx Hmax Hlen.
  - exists d. cbn [for_loop]. unfold ret.
    replace (i + Z.of_nat 0) with i by lia.
    repeat split; intros; try reflexivity; lia.
  - cbn [for_loop]. unfold bind at 1. unfold bind at 1.
    set (p := 3428 + i * (L * 2 + 12)).
    assert (Hp : 0 <= p) by (unfold p; nia).
    rewrite fseek_CUR_at by lia.
    pose proof (Hidx i ltac:(lia)) as Hidx_i.
    assert (HiN : 0 <= i * N) by nia.
    destruct (inner_loop_run N i bytes out
                ltac:(unfold in_int, INT_MIN, INT_MAX in *; lia)
                (Z.to_nat L) 0 d (p + 8))
      as (d1 & Hrun1 & Hl1 & Hout1 & Hin1);
      [lia|lia|exact Hmax|lia|unfold p; nia|].
    unfold bind at 1. rewrite Hrun1.
    unfold bind at 1. rewrite fseek_CUR_at by lia.
    rewrite ret_Done.
    replace (p + 8 + 2 * Z.of_nat (Z.to_nat L) + 4)
      with (3428 + (i + 1) * (L * 2 + 12)) by (unfold p; lia).
    destruct (IH (i + 1) d1) as (d' & Hrun & Hl & Hzero & Hout & Hin);
      [lia
      |intros i' Hi'; rewrite Hl1; apply Hidx; lia
      |rewrite Hl1; exact Hmax
      |replace (i + 1 + Z.of_nat m) with (i + Z.of_nat (S m)) by lia;
       exact Hlen
      |].
    exists d'. split.
    { rewrite Hrun. f_equal. f_equal. lia. }
    split; [congruence|]. split; [discriminate|]. split.
    + intros k Hk.
      transitivity (d1 !! k).
      * destruct m as [|m']; [now rewrite (Hzero eq_refl)|].
        apply Hout. nia.
      * apply Hout1. nia.
    + intros i' j Hi' Hj Hcase.
      destruct (Z.eq_dec i' i) as [->|Hne].
      * transitivity (d1 !! Z.to_nat (i * N + j)).
        -- destruct m as [|m']; [now rewrite (Hzero eq_refl)|].
           apply Hout. left. destruct Hcase as [Hc|Hc]; [|lia]. nia.
        -- specialize (Hin1 j ltac:(lia)).
           rewrite Z.add_0_r in Hin1. rewrite Hin1.
           assert (E : p + 8 + 2 * j = sample_offset L i j)
             by (unfold sample_offset, p; lia).
           rewrite E. reflexivity.
      * apply Hin; [lia|exact Hj|]. destruct Hcase as [Hc|Hc]; [left; exact Hc|right; lia].
Qed.

Lemma to_size_t_twice n :
  0 <= n <= INT_MAX ->
  to_size_t (to_size_t n * 2) = 2 * n.
Proof.
  intros Hn. unfold INT_MAX in Hn. unfold to_size_t.
  rewrite (Z.mod_small n) by lia. rewrite Z.mod_small by lia. lia.
Qed.

Lemma fresh_data_length env n : length (fresh_data env n) = n.
Proof. unfold fresh_data. rewrite length_map, length_seq. reflexivity. Qed.

Lemma fresh_data_lookup env n (k : nat) :
  (k < n)%nat -> fresh_data env n !! k = Some (to_int16 (heap_junk env k)).
Proof.
  intros Hk. unfold fresh_data. rewrite list_lookup_fmap.
  rewrite lookup_seq_lt by exact Hk. reflexivity.
Qed.

Section Runs.
Context (cfg : tile_h) (env : Env).

(** The body of the decoder when both allocations succeed: the coverage
    line is printed and the data loop starts at octet 3428 on a fresh
    array. *)
Lemma decode_body_run bytes p out :
  tile_alloc env = true ->
  0 <= nbLat_of cfg env bytes * nbLon_of cfg env bytes <= INT_MAX ->
  data_alloc env (2 * (nbLat_of cfg env bytes * nbLon_of cfg env bytes)) = true ->
  0 <= DTED_DSI_DATACOV cfg ->
  decode_body cfg env bytes (at_pos bytes p out)
  = bind (store_records (nbLat_of cfg env bytes) (nbLon_of cfg env bytes)
            (fresh_data env
               (Z.to_nat (nbLat_of cfg env bytes * nbLon_of cfg env bytes))))
         (fun d =>
            fclose ;;;
            ret {| latitudeDimension := nbLat_of cfg env bytes;
                   longitudeDimension := nbLon_of cfg env bytes;
                   data := d |})
         (at_pos bytes 3428
            (out ++ [OutCoverage (coverage_of env (header_cov cfg env bytes))])).
Proof.
  intros Htile Hn Hdata Hcov. unfold decode_body, fresh_data, at_pos.
  cbv [bind ret printf fseek_SET fread with_stream set_stream errPrintf
       stream console f_bytes f_pos seek_to].
  rewrite (proj2 (Z.ltb_ge _ _) Hcov), Htile.
  rewrite int_Done by (unfold in_int, INT_MIN, INT_MAX in *; lia).
  cbv [ret]. rewrite (to_size_t_twice _ Hn), Hdata.
  replace (2 * (nbLat_of cfg env bytes * nbLon_of cfg env bytes) / 2)
    with (nbLat_of cfg env bytes * nbLon_of cfg env bytes)
    by (rewrite (Z.mul_comm 2), Z.div_mul; lia).
  reflexivity.
Qed.

Lemma decode_body_Done_allocs bytes w f t w' :
  stream w = Some f ->
  decode_body cfg env bytes w = Done t w' ->
  tile_alloc env = true
  /\ data_alloc env
       (to_size_t
          (to_size_t (nbLat_of cfg env bytes * nbLon_of cfg env bytes) * 2))
     = true.
Proof.
  intros Hs. unfold decode_body.
  cbv [bind ret printf fseek_SET fread with_stream set_stream errPrintf
       stream console f_bytes f_pos].
  destruct w as [sw cw]. cbn in Hs. subst sw.
  destruct (tile_alloc env); [|discriminate].
  unfold int_. destruct (in_int _); cbv [ret undefined]; [|discriminate].
  destruct (data_alloc env _); [auto|discriminate].
Qed.

End Runs.

(** The run of [openTile] on a well-formed file with no more longitude
    posts than latitude posts. *)
Lemma openTile_decodes cfg env fileName bytes w :
  files env !! fileName = Some bytes ->
  0 <= DTED_DSI_NBLAT cfg -> 0 <= DTED_DSI_NBLON cfg ->
  0 <= DTED_DSI_DATACOV cfg -> 3428 <= DTED_DATA cfg ->
  1 <= nbLon_of cfg env bytes <= nbLat_of cfg env bytes ->
  Z.of_nat (length bytes)
  = expected_size cfg (nbLat_of cfg env bytes) (nbLon_of cfg env bytes) ->
  Z.of_nat (length bytes) <= INT_MAX ->
  tile_alloc env = true ->
  data_alloc env (2 * (nbLat_of cfg env bytes * nbLon_of cfg env bytes)) = true ->
  exists d,
    openTile cfg env fileName w
    = Done {| latitudeDimension := nbLat_of cfg env bytes;
              longitudeDimension := nbLon_of cfg env bytes;
              data := d |}
           {| stream := None;
              console :=
                console w
                ++ [OutOpening fileName;
                    OutSize (Z.of_nat (length bytes));
                    OutCoverage (coverage_of env (header_cov cfg env bytes))] |}
    /\ length d
       = Z.to_nat (nbLat_of cfg env bytes * nbLon_of cfg env bytes)
    /\ (forall i j,
           0 <= i < nbLon_of cfg env bytes ->
           0 <= j < nbLat_of cfg env bytes ->
           j < nbLon_of cfg env bytes \/ i = nbLon_of cfg env bytes - 1 ->
           d !! Z.to_nat (i * nbLon_of cfg env bytes + j)
           = Some (file_sample bytes
                     (sample_offset (nbLat_of cfg env bytes) i j)))
    /\ (forall k : nat,
           (nbLon_of cfg env bytes - 1) * nbLon_of cfg env bytes
           + nbLat_of cfg env bytes <= Z.of_nat k
           < nbLat_of cfg env bytes * nbLon_of cfg env bytes ->
           d !! k = Some (to_int16 (heap_junk env k))).
Proof.
  intros Hf Hlat Hlon Hcov Hdata HLN Hsize Hmax Htile Halloc.
  set (L := nbLat_of cfg env bytes) in *. set (N := nbLon_of cfg env bytes) in *.
  unfold expected_size in Hsize.
  assert (HLNmax : 0 <= L * N <= INT_MAX) by (unfold INT_MAX in *; nia).
  assert (He : expectedSize_of cfg L N (world_at_check fileName bytes w)
               = Done (Z.of_nat (length bytes)) (world_at_check fileName bytes w)).
  { rewrite Hsize. apply expectedSize_of_Done.
    - apply dimension_of_range.
    - unfold in_int, INT_MIN, INT_MAX in *. apply andb_true_intro.
      split; [apply Z.leb_le|apply Z.leb_le]; nia.
    - unfold in_int, INT_MIN, INT_MAX in *. apply andb_true_intro.
      split; [apply Z.leb_le|apply Z.leb_le]; nia. }
  rewrite (openTile_size_ok cfg env fileName bytes w Hf Hlat Hlon He).
  change (world_at_check fileName bytes w)
    with (at_pos bytes (Z.of_nat (length bytes))
            ((console w ++ [OutOpening fileName])
             ++ [OutSize (Z.of_nat (length bytes))])).
  rewrite (decode_body_run cfg env bytes _ _ Htile HLNmax Halloc Hcov).
  fold L N. unfold store_records.
  destruct (outer_loop_run L N bytes
              (((console w ++ [OutOpening fileName])
                ++ [OutSize (Z.of_nat (length bytes))])
               ++ [OutCoverage (coverage_of env (header_cov cfg env bytes))])
              ltac:(lia) ltac:(lia) (Z.to_nat N) 0
              (fresh_data env (Z.to_nat (L * N))))
    as (d & Hrun & Hlen & _ & Hout & Hin).
  - lia.
  - intros i' Hi'. rewrite fresh_data_length. nia.
  - rewrite fresh_data_length. lia.
  - nia.
  - exists d. rewrite Z.mul_0_l, Z.add_0_r in Hrun.
    unfold bind at 1. rewrite Hrun.
    split.
    { unfold bind, fclose, with_stream, set_stream, ret, at_pos.
      cbn [stream console]. rewrite <- !app_assoc. reflexivity. }
    split; [rewrite Hlen; apply fresh_data_length|].
    split.
    + intros i j Hi Hj Hcase. apply Hin; [lia|lia|].
      destruct Hcase as [Hc|Hc]; [left; exact Hc|right; lia].
    + intros k Hk. rewrite Hout by (right; lia).
      apply fresh_data_lookup. lia.
Qed.

(** ** Stores beyond the end of the array *)

Lemma for_loop_Done_visits {S} (Inv : S -> Prop) (body : Z -> S -> M S) :
  (forall i s w s' w', Inv s -> body i s w = Done s' w' -> Inv s') ->
  forall n i s w s' w',
    Inv s -> for_loop n i body s w = Done s' w' ->
    Inv s'
    /\ forall k, 0 <= k < Z.of_nat n ->
         exists s1 w1 s2 w2, Inv s1 /\ body (i + k) s1 w1 = Done s2 w2.
Proof.
  intros Hbody. induction n as [|n IH]; intros i s w s' w' Hs H.
  - cbn [for_loop] in H. inversion H; subst. split; [exact Hs|]. intros; lia.
  - cbn [for_loop] in H.
    apply bind_Done in H as (s1 & w1 & H1 & H2).
    pose proof (Hbody _ _ _ _ _ Hs H1) as Hs1.
    destruct (IH _ _ _ _ _ Hs1 H2) as [Hs' Hvis].
    split; [exact Hs'|]. intros k Hk.
    destruct (Z.eq_dec k 0) as [->|Hk0].
    + rewrite Z.add_0_r. eauto 6.
    + destruct (Hvis (k - 1) ltac:(lia)) as (a & b & c & e & Ha & Hb).
      replace (i + 1 + (k - 1)) with (i + k) in Hb by lia. eauto 6.
Qed.

Lemma int_Done_inv z w a w1 : int_ z w = Done a w1 -> a = z /\ w1 = w.
Proof.
  unfold int_. destruct (in_int z); cbn; intros H; inversion H; auto.
Qed.

Lemma store_sample_done_or_outside N i j d w :
  stream w <> None ->
  in_int (i * N) = true -> in_int (i * N + j) = true -> 0 <= i * N + j ->
  done_or_outside (length d) (store_sample N i j d w).
Proof.
  intros Hs H1 H2 Hpos. unfold store_sample, bind.
  rewrite (int_Done _ H1), (int_Done _ H2).
  destruct ((0 <=? i * N + j) && (i * N + j <? Z.of_nat (length d))) eqn:Hc.
  - unfold fread, with_stream, bind, set_stream, ret.
    destruct (stream w); [|contradiction]. cbn.
    split; [apply length_insert|discriminate].
  - unfold undefined. cbn. split; [reflexivity|].
    apply andb_false_iff in Hc as [Hc|Hc];
      [apply Z.leb_gt in Hc|apply Z.ltb_ge in Hc]; lia.
Qed.

Lemma for_loop_done_or_outside len lo hi (body : Z -> list Z -> M (list Z)) :
  (forall i d w, lo <= i < hi -> length d = len -> stream w <> None ->
                 done_or_outside len (body i d w)) ->
  forall n i d w,
    lo <= i -> i + Z.of_nat n <= hi -> length d = len -> stream w <> None ->
    done_or_outside len (for_loop n i body d w).
Proof.
  intros Hbody. induction n as [|n IH]; intros i d w Hlo Hhi Hd Hw.
  - cbn. auto.
  - cbn [for_loop]. unfold bind.
    pose proof (Hbody i d w ltac:(lia) Hd Hw) as H.
    destruct (body i d w) as [d1 w1|e w1|u]; [|contradiction|exact H].
    destruct H as [Hd1 Hw1]. apply IH; [lia|lia|exact Hd1|exact Hw1].
Qed.

(** Within the range of four-digit dimensions the data loop either returns
    or stops at a store beyond the end of the array. *)
Lemma store_records_shape L N d w :
  0 <= L <= 9999 -> 0 <= N <= 9999 ->
  stream w <> None ->
  done_or_outside (length d) (store_records L N d w).
Proof.
  intros HL HN Hw. unfold store_records.
  apply (for_loop_done_or_outside (length d) 0 N);
    [|lia|lia|reflexivity|exact Hw].
  intros i d1 w1 Hi Hd1 Hw1. unfold bind at 1.
  unfold fseek_CUR at 1, with_stream, set_stream.
  destruct (stream w1) as [f|] eqn:Hf; [|contradiction].
  unfold bind at 1.
  match goal with
  | |- context [for_loop ?n 0 ?b d1 ?w2] =>
      assert (Hin : done_or_outside (length d) (for_loop n 0 b d1 w2))
  end.
  { apply (for_loop_done_or_outside (length d) 0 L);
      [|lia|lia|exact Hd1|discriminate].
    intros j d2 w2 Hj Hd2 Hw2. rewrite <- Hd2.
    apply store_sample_done_or_outside;
      [exact Hw2
      |unfold in_int, INT_MIN, INT_MAX; apply andb_true_intro;
       split; apply Z.leb_le; nia
      |unfold in_int, INT_MIN, INT_MAX; apply andb_true_intro;
       split; apply Z.leb_le; nia
      |nia]. }
  match goal with
  | |- context [for_loop ?n 0 ?b d1 ?w2] =>
      destruct (for_loop n 0 b d1 w2) as [d2 w2'|e w2'|u]
  end; [|contradiction|exact Hin].
  destruct Hin as [Hd2 Hw2]. unfold bind at 1.
  unfold fseek_CUR, with_stream, set_stream.
  destruct (stream w2') as [f2|]; [|contradiction].
  cbn. split; [exact Hd2|discriminate].
Qed.

(** With fewer latitude posts than longitude posts the data loop stops at
    a store beyond the end of the array. *)
Lemma store_records_outside L N d w :
  1 <= L < N -> N <= 9999 ->
  Z.of_nat (length d) = L * N ->
  stream w <> None ->
  exists pt, L * N <= pt
             /\ store_records L N d w = Undefined (OutOfBounds pt (L * N)).
Proof.
  intros HL HN Hd Hw.
  pose proof (store_records_shape L N d w ltac:(lia) ltac:(lia) Hw) as Hshape.
  destruct (store_records L N d w) as [d' w'|e w'|u] eqn:Hrun.
  - exfalso. unfold store_records in Hrun.
    apply (for_loop_Done_visits (fun s => length s = length d)) in Hrun;
      [|intros i s w1 s' w1' Hs Hb|reflexivity].
    + destruct Hrun as [_ Hvis].
      destruct (Hvis (N - 1) ltac:(lia)) as (s1 & w1 & s2 & w2 & Hs1 & Hb).
      apply bind_Done in Hb as (? & wa & _ & Hb).
      apply bind_Done in Hb as (s3 & wb & Hb & _).
      apply (for_loop_Done_visits (fun s => length s = length d)) in Hb;
        [|intros j s wj s' wj' Hs Hj|exact Hs1].
      * destruct Hb as [_ Hvis2].
        destruct (Hvis2 (L - 1) ltac:(lia)) as (t1 & v1 & t2 & v2 & Ht1 & Hst).
        unfold store_sample in Hst.
        apply bind_Done in Hst as (a & va & Ha & Hst).
        apply bind_Done in Hst as (pt & vb & Hpt & Hst).
        apply int_Done_inv in Ha as [-> ->].
        apply int_Done_inv in Hpt as [-> ->].
        match type of Hst with
        | (if ?c then _ else _) _ = _ => destruct c eqn:Hc; [|discriminate]
        end.
        apply andb_prop in Hc as [_ Hc]. apply Z.ltb_lt in Hc. nia.
      * rewrite <- Hs. revert Hj. apply keeps_length_store_sample.
    + apply bind_Done in Hb as (? & wa & _ & Hb).
      apply bind_Done in Hb as (s3 & wb & Hb & Hc).
      apply bind_Done in Hc as (? & wc & _ & Hc).
      inversion Hc; subst. rewrite <- Hs. revert Hb.
      apply keeps_length_for_loop. intros j. apply keeps_length_store_sample.
  - contradiction.
  - destruct u as [|pt l| | |]; try contradiction.
    destruct Hshape as [-> Hpt]. rewrite Hd in *.
    exists pt. split; [exact Hpt|reflexivity].
Qed.

(** ** The decoder on well-formed files *)

(** X1: on a well-formed file with no more longitude posts than latitude
    posts, whose size is the expected one, [openTile] returns: the tile has
    the two dimensions of the header and [nbLat * nbLon] elements, the
    stream is closed and the three lines have been printed. *)
Theorem openTile_returns_tile cfg env fileName bytes w :
  files env !! fileName = Some bytes ->
  0 <= DTED_DSI_NBLAT cfg -> 0 <= DTED_DSI_NBLON cfg ->
  0 <= DTED_DSI_DATACOV cfg -> 3428 <= DTED_DATA cfg ->
  1 <= nbLon_of cfg env bytes <= nbLat_of cfg env bytes ->
  Z.of_nat (length bytes)
  = expected_size cfg (nbLat_of cfg env bytes) (nbLon_of cfg env bytes) ->
  Z.of_nat (length bytes) <= INT_MAX ->
  tile_alloc env = true ->
  data_alloc env (2 * (nbLat_of cfg env bytes * nbLon_of cfg env bytes)) = true ->
  exists t w',
    openTile cfg env fileName w = Done t w'
    /\ latitudeDimension t = nbLat_of cfg env bytes
    /\ longitudeDimension t = nbLon_of cfg env bytes
    /\ length (data t)
       = Z.to_nat (nbLat_of cfg env bytes * nbLon_of cfg env bytes)
    /\ stream w' = None
    /\ console w'
       = console w
         ++ [OutOpening fileName;
             OutSize (Z.of_nat (length bytes));
             OutCoverage (coverage_of env (header_cov cfg env bytes))].
Proof.
  intros Hf Hlat Hlon Hcov Hdata HLN Hsize Hmax Htile Halloc.
  destruct (openTile_decodes cfg env fileName bytes w Hf Hlat Hlon Hcov Hdata
              HLN Hsize Hmax Htile Halloc) as (d & Hrun & Hlen & _).
  eexists _, _. split; [exact Hrun|]. cbn. auto.
Qed.

Lemma openTile_returns_tile_witness :
  exists t w',
    openTile dted2 (env_with file_3x2) "tile.dt2" w0 = Done t w'
    /\ latitudeDimension t = 3 /\ longitudeDimension t = 2
    /\ length (data t) = 6%nat /\ stream w' = None.
Proof.
  destruct (openTile_returns_tile dted2 (env_with file_3x2) "tile.dt2"
              file_3x2 w0)
    as (t & w' & Hrun & Hl & Hn & Hlen & Hs & _).
  - vm_compute. reflexivity.
  - vm_compute. discriminate.
  - vm_compute. discriminate.
  - vm_compute. discriminate.
  - vm_compute. discriminate.
  - vm_compute. split; discriminate.
  - vm_compute. reflexivity.
  - vm_compute. discriminate.
  - reflexivity.
  - reflexivity.
  - exists t, w'. split; [exact Hrun|]. split; [exact Hl|].
    split; [exact Hn|]. split; [exact Hlen|exact Hs].
Defined.

(** What a returning run on such a file has stored. *)
Lemma openTile_Done_stored cfg env fileName bytes w t w' :
  files env !! fileName = Some bytes ->
  0 <= DTED_DSI_NBLAT cfg -> 0 <= DTED_DSI_NBLON cfg ->
  0 <= DTED_DSI_DATACOV cfg -> 3428 <= DTED_DATA cfg ->
  1 <= nbLon_of cfg env bytes <= nbLat_of cfg env bytes ->
  Z.of_nat (length bytes)
  = expected_size cfg (nbLat_of cfg env bytes) (nbLon_of cfg env bytes) ->
  Z.of_nat (length bytes) <= INT_MAX ->
  openTile cfg env fileName w = Done t w' ->
  latitudeDimension t = nbLat_of cfg env bytes
  /\ longitudeDimension t = nbLon_of cfg env bytes
  /\ (forall i j,
         0 <= i < longitudeDimension t -> 0 <= j < latitudeDimension t ->
         j < longitudeDimension t \/ i = longitudeDimension t - 1 ->
         data t !! Z.to_nat (i * longitudeDimension t + j)
         = Some (file_sample bytes (sample_offset (latitudeDimension t) i j)))
  /\ (forall k : nat,
         (longitudeDimension t - 1) * longitudeDimension t
         + latitudeDimension t <= Z.of_nat k
         < latitudeDimension t * longitudeDimension t ->
         data t !! k = Some (to_int16 (heap_junk env k))).
Proof.
  intros Hf Hlat Hlon Hcov Hdata HLN Hsize Hmax Hrun.
  assert (Hallocs : tile_alloc env = true
            /\ data_alloc env
                 (2 * (nbLat_of cfg env bytes * nbLon_of cfg env bytes))
               = true).
  { assert (HLNmax : 0 <= nbLat_of cfg env bytes * nbLon_of cfg env bytes
                     <= INT_MAX)
      by (unfold expected_size, INT_MAX in *; nia).
    rewrite <- (to_size_t_twice _ HLNmax).
    rewrite (openTile_split cfg env fileName bytes w Hf Hlat Hlon) in Hrun.
    apply bind_Done in Hrun as (z & w1 & Hz & Hrun).
    apply bind_Done in Hrun as (? & w2 & Hc & Hrun).
    destruct (expectedSize_of_pure cfg (nbLat_of cfg env bytes)
                (nbLon_of cfg env bytes) (world_at_check fileName bytes w))
      as [[z' Hz']|[u Hu]]; [|congruence].
    rewrite Hz' in Hz. inversion Hz; subst z' w1; clear Hz.
    destruct (Z.of_nat (length bytes) =? z); [|discriminate].
    inversion Hc; subst w2; clear Hc.
    eapply decode_body_Done_allocs; [|exact Hrun]. reflexivity. }
  destruct Hallocs as [Htile Halloc].
  destruct (openTile_decodes cfg env fileName bytes w Hf Hlat Hlon Hcov Hdata
              HLN Hsize Hmax Htile Halloc) as (d & Hrun' & _ & Hsamples & Htail).
  rewrite Hrun' in Hrun. inversion Hrun; subst t w'; clear Hrun.
  cbn [latitudeDimension longitudeDimension data]. auto.
Qed.

(** X2: in the tile such a run returns, the element [i * nbLon + j] is the
    elevation the codec gives for sample [j] of record [i] of the file,
    for every latitude index below [nbLon] and, in the last record, for
    every latitude index; when the tile is square this is every sample. *)
Theorem openTile_samples cfg env fileName bytes w t w' :
  files env !! fileName = Some bytes ->
  0 <= DTED_DSI_NBLAT cfg -> 0 <= DTED_DSI_NBLON cfg ->
  0 <= DTED_DSI_DATACOV cfg -> 3428 <= DTED_DATA cfg ->
  1 <= nbLon_of cfg env bytes <= nbLat_of cfg env bytes ->
  Z.of_nat (length bytes)
  = expected_size cfg (nbLat_of cfg env bytes) (nbLon_of cfg env bytes) ->
  Z.of_nat (length bytes) <= INT_MAX ->
  openTile cfg env fileName w = Done t w' ->
  (forall i j,
      0 <= i < longitudeDimension t -> 0 <= j < latitudeDimension t ->
      j < longitudeDimension t \/ i = longitudeDimension t - 1 ->
      data t !! Z.to_nat (i * longitudeDimension t + j)
      = Some (file_sample bytes (sample_offset (latitudeDimension t) i j)))
  /\ (latitudeDimension t = longitudeDimension t ->
      forall i j,
        0 <= i < longitudeDimension t -> 0 <= j < latitudeDimension t ->
        data t !! Z.to_nat (i * longitudeDimension t + j)
        = Some (file_sample bytes (sample_offset (latitudeDimension t) i j))).
Proof.
  intros Hf Hlat Hlon Hcov Hdata HLN Hsize Hmax Hrun.
  destruct (openTile_Done_stored cfg env fileName bytes w t w' Hf Hlat Hlon
              Hcov Hdata HLN Hsize Hmax Hrun) as (_ & _ & Hin & _).
  split; [exact Hin|].
  intros Hsq i j Hi Hj. apply Hin; [exact Hi|exact Hj|left; lia].
Qed.

Lemma openTile_samples_witness :
  exists t w',
    openTile dted2 (env_with file_2x2) "tile.dt2" w0 = Done t w'
    /\ data t !! Z.to_nat (1 * 2 + 0)
       = Some (file_sample file_2x2 (sample_offset 2 1 0))
    /\ file_sample file_2x2 (sample_offset 2 0 1) = -100.
Proof.
  assert (Hrun : exists t w',
             openTile dted2 (env_with file_2x2) "tile.dt2" w0 = Done t w')
    by (eexists _, _; vm_compute; reflexivity).
  destruct Hrun as (t & w' & Hrun). exists t, w'. split; [exact Hrun|].
  split; [|vm_compute; reflexivity].
  assert (Hl : latitudeDimension t = 2 /\ longitudeDimension t = 2).
  { revert Hrun. vm_compute. intros H. inversion H. split; reflexivity. }
  destruct Hl as [Hl Hn].
  pose proof (proj2 (openTile_samples dted2 (env_with file_2x2) "tile.dt2"
                       file_2x2 w0 t w'
                       ltac:(vm_compute; reflexivity)
                       ltac:(vm_compute; discriminate)
                       ltac:(vm_compute; discriminate)
                       ltac:(vm_compute; discriminate)
                       ltac:(vm_compute; discriminate)
                       ltac:(vm_compute; split; discriminate)
                       ltac:(vm_compute; reflexivity)
                       ltac:(vm_compute; discriminate)
                       Hrun) ltac:(congruence) 1 0) as H.
  rewrite Hl, Hn in H. apply H; lia.
Defined.

(** X3: with fewer longitude posts than latitude posts the stores leave the
    end of the array untouched: from index [(nbLon - 1) * nbLon + nbLat] on,
    the tile returned holds what [malloc] handed out. *)
Theorem openTile_unwritten_tail cfg env fileName bytes w t w' :
  files env !! fileName = Some bytes ->
  0 <= DTED_DSI_NBLAT cfg -> 0 <= DTED_DSI_NBLON cfg ->
  0 <= DTED_DSI_DATACOV cfg -> 3428 <= DTED_DATA cfg ->
  1 <= nbLon_of cfg env bytes <= nbLat_of cfg env bytes ->
  Z.of_nat (length bytes)
  = expected_size cfg (nbLat_of cfg env bytes) (nbLon_of cfg env bytes) ->
  Z.of_nat (length bytes) <= INT_MAX ->
  openTile cfg env fileName w = Done t w' ->
  forall k : nat,
    (longitudeDimension t - 1) * longitudeDimension t + latitudeDimension t
    <= Z.of_nat k < latitudeDimension t * longitudeDimension t ->
    data t !! k = Some (to_int16 (heap_junk env k)).
Proof.
  intros Hf Hlat Hlon Hcov Hdata HLN Hsize Hmax Hrun.
  exact (proj2 (proj2 (proj2
           (openTile_Done_stored cfg env fileName bytes w t w' Hf Hlat Hlon
              Hcov Hdata HLN Hsize Hmax Hrun)))).
Qed.

Lemma openTile_unwritten_tail_witness :
  exists t w',
    openTile dted2 (env_with file_3x2) "tile.dt2" w0 = Done t w'
    /\ data t !! 5%nat = Some 21845.
Proof.
  assert (Hrun : exists t w',
             openTile dted2 (env_with file_3x2) "tile.dt2" w0 = Done t w')
    by (eexists _, _; vm_compute; reflexivity).
  destruct Hrun as (t & w' & Hrun). exists t, w'. split; [exact Hrun|].
  assert (Hl : latitudeDimension t = 3 /\ longitudeDimension t = 2).
  { revert Hrun. vm_compute. intros H. inversion H. split; reflexivity. }
  destruct Hl as [Hl Hn].
  refine (openTile_unwritten_tail dted2 (env_with file_3x2) "tile.dt2"
            file_3x2 w0 t w' _ _ _ _ _ _ _ _ Hrun 5%nat _).
  - vm_compute. reflexivity.
  - vm_compute. discriminate.
  - vm_compute. discriminate.
  - vm_compute. discriminate.
  - vm_compute. discriminate.
  - vm_compute. split; discriminate.
  - vm_compute. reflexivity.
  - vm_compute. discriminate.
  - rewrite Hl, Hn. lia.
Defined.

(** X4: on a well-formed file with fewer latitude posts than longitude
    posts, whose size is the expected one, the run of [openTile] does not
    return: it reaches a store at an index at or beyond the [nbLat * nbLon]
    elements of the array. *)
Theorem openTile_outside_when_fewer_latitudes cfg env fileName bytes w :
  files env !! fileName = Some bytes ->
  0 <= DTED_DSI_NBLAT cfg -> 0 <= DTED_DSI_NBLON cfg ->
  0 <= DTED_DSI_DATACOV cfg ->
  1 <= nbLat_of cfg env bytes < nbLon_of cfg env bytes ->
  nbLon_of cfg env bytes <= 9999 ->
  Z.of_nat (length bytes)
  = expected_size cfg (nbLat_of cfg env bytes) (nbLon_of cfg env bytes) ->
  Z.of_nat (length bytes) <= INT_MAX ->
  tile_alloc env = true ->
  data_alloc env (2 * (nbLat_of cfg env bytes * nbLon_of cfg env bytes)) = true ->
  exists pt,
    nbLat_of cfg env bytes * nbLon_of cfg env bytes <= pt
    /\ openTile cfg env fileName w
       = Undefined (OutOfBounds pt
                      (nbLat_of cfg env bytes * nbLon_of cfg env bytes)).
Proof.
  intros Hf Hlat Hlon Hcov HLN HN Hsize Hmax Htile Halloc.
  set (L := nbLat_of cfg env bytes) in *. set (N := nbLon_of cfg env bytes) in *.
  assert (HLNmax : 0 <= L * N <= INT_MAX) by (unfold INT_MAX; nia).
  assert (He : expectedSize_of cfg L N (world_at_check fileName bytes w)
               = Done (Z.of_nat (length bytes)) (world_at_check fileName bytes w)).
  { rewrite Hsize. apply expectedSize_of_Done.
    - apply dimension_of_range.
    - unfold in_int, INT_MIN, INT_MAX. apply andb_true_intro.
      split; apply Z.leb_le; nia.
    - fold (expected_size cfg L N). rewrite <- Hsize.
      unfold in_int, INT_MIN, INT_MAX in *. apply andb_true_intro.
      split; apply Z.leb_le; lia. }
  rewrite (openTile_size_ok cfg env fileName bytes w Hf Hlat Hlon He).
  change (world_at_check fileName bytes w)
    with (at_pos bytes (Z.of_nat (length bytes))
            ((console w ++ [OutOpening fileName])
             ++ [OutSize (Z.of_nat (length bytes))])).
  rewrite (decode_body_run cfg env bytes _ _ Htile HLNmax Halloc Hcov).
  fold L N.
  destruct (store_records_outside L N (fresh_data env (Z.to_nat (L * N)))
              (at_pos bytes 3428
                 (((console w ++ [OutOpening fileName])
                   ++ [OutSize (Z.of_nat (length bytes))])
                  ++ [OutCoverage (coverage_of env (header_cov cfg env bytes))])))
    as (pt & Hpt & Hrun).
  - lia.
  - exact HN.
  - rewrite fresh_data_length. lia.
  - discriminate.
  - exists pt. split; [exact Hpt|]. unfold bind. rewrite Hrun. reflexivity.
Qed.

Lemma openTile_outside_witness :
  exists pt,
    2 <= pt
    /\ openTile dted2 (env_with file_1x2) "tile.dt2" w0
       = Undefined (OutOfBounds pt 2).
Proof.
  refine (openTile_outside_when_fewer_latitudes dted2 (env_with file_1x2)
            "tile.dt2" file_1x2 w0 _ _ _ _ _ _ _ _ _ _).
  - vm_compute. reflexivity.
  - vm_compute. discriminate.
  - vm_compute. discriminate.
  - vm_compute. discriminate.
  - vm_compute. split; [discriminate|reflexivity].
  - vm_compute. discriminate.
  - vm_compute. reflexivity.
  - vm_compute. discriminate.
  - reflexivity.
  - reflexivity.
Defined.

(** ** Error exits and malformed files *)

Lemma expectedSize_of_value cfg a b w z w' :
  expectedSize_of cfg a b w = Done z w' ->
  z = DTED_DATA cfg + (a * 2 + 12) * b.
Proof.
  unfold expectedSize_of. intros H.
  apply bind_Done in H as (x1 & w1 & H1 & H).
  apply bind_Done in H as (x2 & w2 & H2 & H).
  apply bind_Done in H as (x3 & w3 & H3 & H).
  apply int_Done_inv in H1 as [-> ->]. apply int_Done_inv in H2 as [-> ->].
  apply int_Done_inv in H3 as [-> ->]. apply int_Done_inv in H as [-> _].
  reflexivity.
Qed.

(** X5: when the size check has passed, a failing allocation ends the run
    in [errPrintf] after the coverage line has been printed and with the
    stream still open; the array is requested with
    [nbLat * nbLon * 2] octets, reduced modulo 2^64. *)
Theorem openTile_allocation_failure cfg env fileName bytes w :
  files env !! fileName = Some bytes ->
  0 <= DTED_DSI_NBLAT cfg -> 0 <= DTED_DSI_NBLON cfg ->
  0 <= DTED_DSI_DATACOV cfg ->
  in_int ((nbLat_of cfg env bytes * 2 + 12) * nbLon_of cfg env bytes) = true ->
  in_int (expected_size cfg (nbLat_of cfg env bytes) (nbLon_of cfg env bytes))
  = true ->
  Z.of_nat (length bytes)
  = expected_size cfg (nbLat_of cfg env bytes) (nbLon_of cfg env bytes) ->
  let w' :=
    at_pos bytes
      (DTED_DSI_DATACOV cfg
       + Z.of_nat (length (file_field bytes (DTED_DSI_DATACOV cfg) 2)))
      (console w
       ++ [OutOpening fileName;
           OutSize (Z.of_nat (length bytes));
           OutCoverage (coverage_of env (header_cov cfg env bytes))]) in
  (tile_alloc env = false ->
   openTile cfg env fileName w = Exit ErrTileAlloc w')
  /\ (tile_alloc env = true ->
      in_int (nbLat_of cfg env bytes * nbLon_of cfg env bytes) = true ->
      data_alloc env
        (to_size_t
           (to_size_t (nbLat_of cfg env bytes * nbLon_of cfg env bytes) * 2))
      = false ->
      openTile cfg env fileName w = Exit ErrDataAlloc w').
Proof.
  intros Hf Hlat Hlon Hcov H1 H2 Hsize w'.
  pose proof (expectedSize_of_Done cfg (nbLat_of cfg env bytes)
                (nbLon_of cfg env bytes) (world_at_check fileName bytes w)
                (dimension_of_range env _) H1 H2) as He.
  fold (expected_size cfg (nbLat_of cfg env bytes) (nbLon_of cfg env bytes))
    in He.
  rewrite <- Hsize in He.
  rewrite (openTile_size_ok cfg env fileName bytes w Hf Hlat Hlon He).
  subst w'. unfold decode_body, world_at_check, at_pos, header_cov.
  cbv [bind ret printf fseek_SET fread with_stream set_stream errPrintf
       stream console f_bytes f_pos seek_to].
  rewrite (proj2 (Z.ltb_ge _ _) Hcov). rewrite <- !app_assoc.
  split.
  - intros Ht. rewrite Ht. reflexivity.
  - intros Ht Hn Hd. rewrite Ht. unfold int_. rewrite Hn. cbv [ret].
    rewrite Hd. reflexivity.
Qed.

Lemma openTile_allocation_failure_witness :
  exists w',
    openTile dted2
      {| files := {[ "tile.dt2"%string := file_2x2 ]};
         space_alloc := true; tile_alloc := true;
         data_alloc := fun size => negb (size =? 8);
         CHAR_SIGNED := true;
         stack_junk := fun _ => xff; heap_junk := fun _ => 0 |}
      "tile.dt2" w0 = Exit ErrDataAlloc w'
    /\ stream w' <> None.
Proof.
  eexists. split.
  - refine (proj2 (openTile_allocation_failure dted2 _ "tile.dt2" file_2x2 w0
                     _ _ _ _ _ _ _) _ _ _).
    + vm_compute. reflexivity.
    + vm_compute. discriminate.
    + vm_compute. discriminate.
    + vm_compute. discriminate.
    + vm_compute. reflexivity.
    + vm_compute. reflexivity.
    + vm_compute. reflexivity.
    + reflexivity.
    + vm_compute. reflexivity.
    + vm_compute. reflexivity.
  - unfold at_pos. cbn [stream]. discriminate.
Defined.

Lemma file_field_beyond bytes off n :
  Z.of_nat (length bytes) <= off -> file_field bytes off n = [].
Proof.
  intros H. unfold file_field. rewrite drop_ge by lia. apply take_nil.
Qed.

(** X6: a file that ends before its dimension fields (the empty file, for
    one) never yields a tile: both dimensions are then computed from the
    indeterminate contents of [headerData], and for a file more than 18
    octets shorter than [DTED_DATA] no such value passes the size check. *)
Theorem openTile_short_file cfg env fileName bytes w :
  files env !! fileName = Some bytes ->
  Z.of_nat (length bytes) <= DTED_DSI_NBLAT cfg ->
  Z.of_nat (length bytes) <= DTED_DSI_NBLON cfg ->
  Z.of_nat (length bytes) + 18 < DTED_DATA cfg ->
  nbLat_of cfg env bytes = nbLon_of cfg env bytes
  /\ nbLat_of cfg env bytes = dimension_of env (map (stack_junk env) (seq 0 10))
  /\ (forall t w', openTile cfg env fileName w <> Done t w')
  /\ (forall e w', openTile cfg env fileName w = Exit e w' ->
        e = ErrSize (expected_size cfg (nbLat_of cfg env bytes)
                                       (nbLon_of cfg env bytes))).
Proof.
  intros Hf Hlat Hlon Hshort.
  assert (Hv : nbLat_of cfg env bytes
               = dimension_of env (map (stack_junk env) (seq 0 10))).
  { unfold nbLat_of, header_lat.
    rewrite file_field_beyond by exact Hlat. reflexivity. }
  assert (Hv' : nbLon_of cfg env bytes = nbLat_of cfg env bytes).
  { unfold nbLon_of, nbLat_of, header_lon.
    rewrite (file_field_beyond bytes (DTED_DSI_NBLON cfg)) by exact Hlon.
    reflexivity. }
  split; [symmetry; exact Hv'|]. split; [exact Hv|].
  rewrite (openTile_split cfg env fileName bytes w Hf) by lia.
  set (v := nbLat_of cfg env bytes) in *. rewrite Hv'.
  unfold bind at 1. unfold bind at 2.
  destruct (expectedSize_of_pure cfg v v (world_at_check fileName bytes w))
    as [[z Hz]|[u Hu]].
  - rewrite Hz. pose proof (expectedSize_of_value _ _ _ _ _ _ Hz) as Ez.
    assert (Hsq : -18 <= (v * 2 + 12) * v)
      by (pose proof (Z.square_nonneg (v + 3)); lia).
    assert (Hne : (Z.of_nat (length bytes) =? z) = false)
      by (apply Z.eqb_neq; lia).
    unfold bind. rewrite Hne. unfold errPrintf.
    split; [discriminate|].
    intros e w' H. inversion H. unfold expected_size. congruence.
  - rewrite Hu. split; discriminate.
Qed.

Lemma openTile_short_file_witness :
  let env := {| files := {[ "tile.dt2"%string := [] ]};
                space_alloc := true; tile_alloc := true;
                data_alloc := fun _ => true; CHAR_SIGNED := true;
                stack_junk := fun _ => "0"%byte; heap_junk := fun _ => 0 |} in
  exists w',
    openTile dted2 env "tile.dt2" w0 = Exit (ErrSize 3428) w'.
Proof.
  intros env.
  assert (Hrun : exists e w', openTile dted2 env "tile.dt2" w0 = Exit e w')
    by (eexists _, _; vm_compute; reflexivity).
  destruct Hrun as (e & w' & Hrun). exists w'. rewrite Hrun. f_equal.
  refine (proj2 (proj2 (proj2
            (openTile_short_file dted2 env "tile.dt2" [] w0 _ _ _ _)))
            e w' Hrun).
  - vm_compute. reflexivity.
  - vm_compute. discriminate.
  - vm_compute. discriminate.
  - vm_compute. reflexivity.
Defined.

(** ** Headers made of digits *)

Lemma char_val_digit env b : is_digit b -> char_val env b = Z.of_N (Byte.to_N b).
Proof.
  unfold is_digit, char_val. intros H.
  destruct (CHAR_SIGNED env); cbn [andb]; [|reflexivity].
  rewrite (proj2 (Z.leb_gt _ _)) by lia. reflexivity.
Qed.

Lemma byte_to_N_inj a b : Byte.to_N a = Byte.to_N b -> a = b.
Proof.
  intros H. pose proof (Byte.of_to_N a) as Ha. pose proof (Byte.of_to_N b) as Hb.
  rewrite H in Ha. congruence.
Qed.

(** X7: on four ASCII digits the dimension read lies between 0 and 9999,
    whatever the signedness of [char] and the rest of [headerData], and
    two fields that give the same dimension are the same four digits. *)
Theorem dimension_of_digits env a b c d rest :
  is_digit a -> is_digit b -> is_digit c -> is_digit d ->
  0 <= dimension_of env (overwrite [a; b; c; d] rest) <= 9999
  /\ (forall a' b' c' d' rest',
         is_digit a' -> is_digit b' -> is_digit c' -> is_digit d' ->
         dimension_of env (overwrite [a; b; c; d] rest)
         = dimension_of env (overwrite [a'; b'; c'; d'] rest') ->
         a = a' /\ b = b' /\ c = c' /\ d = d').
Proof.
  intros Ha Hb Hc Hd.
  assert (Hval : forall x y z t r,
             is_digit x -> is_digit y -> is_digit z -> is_digit t ->
             dimension_of env (overwrite [x; y; z; t] r)
             = 1000 * (Z.of_N (Byte.to_N x) - 48)
               + 100 * (Z.of_N (Byte.to_N y) - 48)
               + 10 * (Z.of_N (Byte.to_N z) - 48)
               + (Z.of_N (Byte.to_N t) - 48)).
  { intros x y z t r Hx Hy Hz Ht.
    unfold dimension_of, hd, overwrite. cbn [length app nth].
    rewrite !char_val_digit by assumption. reflexivity. }
  split.
  - rewrite Hval by assumption. unfold is_digit in *. lia.
  - intros a' b' c' d' rest' Ha' Hb' Hc' Hd' Heq.
    rewrite !Hval in Heq by assumption. unfold is_digit in *.
    repeat split; apply byte_to_N_inj; lia.
Qed.

Lemma dimension_of_digits_witness :
  0 <= dimension_of (env_with []) (overwrite (bytes_of "0121") []) <= 9999.
Proof.
  refine (proj1 (dimension_of_digits (env_with []) "0"%byte "1"%byte "2"%byte
                   "1"%byte [] _ _ _ _)); vm_compute; split; discriminate.
Defined.

(** X8: when the two dimension fields of the file are ASCII digits and
    [DTED_DATA] is at most 1 900 000 000, no arithmetic of [openTile]
    overflows and the stream is never used closed: the only undefined
    behaviour a run can reach is a store at or beyond the end of the
    array. *)
Theorem openTile_digit_header cfg env fileName bytes w a b c d a' b' c' d' :
  files env !! fileName = Some bytes ->
  0 <= DTED_DSI_NBLAT cfg -> 0 <= DTED_DSI_NBLON cfg ->
  0 <= DTED_DATA cfg <= 1900000000 ->
  file_field bytes (DTED_DSI_NBLAT cfg) 4 = [a; b; c; d] ->
  file_field bytes (DTED_DSI_NBLON cfg) 4 = [a'; b'; c'; d'] ->
  is_digit a -> is_digit b -> is_digit c -> is_digit d ->
  is_digit a' -> is_digit b' -> is_digit c' -> is_digit d' ->
  forall u,
    openTile cfg env fileName w = Undefined u ->
    exists pt,
      u = OutOfBounds pt (nbLat_of cfg env bytes * nbLon_of cfg env bytes)
      /\ nbLat_of cfg env bytes * nbLon_of cfg env bytes <= pt.
Proof.
  intros Hf Hlat Hlon Hdata Hfa Hfa' Ha Hb Hc Hd Ha' Hb' Hc' Hd' u.
  assert (HL : 0 <= nbLat_of cfg env bytes <= 9999).
  { unfold nbLat_of, header_lat. rewrite Hfa.
    apply dimension_of_digits; assumption. }
  assert (HN : 0 <= nbLon_of cfg env bytes <= 9999).
  { unfold nbLon_of, header_lon. rewrite Hfa'.
    apply dimension_of_digits; assumption. }
  set (L := nbLat_of cfg env bytes) in *. set (N := nbLon_of cfg env bytes) in *.
  rewrite (openTile_split cfg env fileName bytes w Hf Hlat Hlon). fold L N.
  unfold bind at 1.
  rewrite expectedSize_of_Done;
    [|lia
     |unfold in_int, INT_MIN, INT_MAX; apply andb_true_intro;
      split; apply Z.leb_le; nia
     |unfold in_int, INT_MIN, INT_MAX; apply andb_true_intro;
      split; apply Z.leb_le; nia].
  unfold bind at 1.
  destruct (Z.of_nat (length bytes) =? DTED_DATA cfg + (L * 2 + 12) * N);
    cbv [ret errPrintf]; [|discriminate].
  unfold decode_body, world_at_check. fold L N.
  cbv [bind ret printf fseek_SET fread with_stream set_stream errPrintf
       stream console f_bytes f_pos].
  destruct (tile_alloc env); [|discriminate].
  rewrite int_Done
    by (unfold in_int, INT_MIN, INT_MAX; apply andb_true_intro;
        split; apply Z.leb_le; nia).
  rewrite (to_size_t_twice (L * N)) by (unfold INT_MAX; nia).
  destruct (data_alloc env _); [|discriminate].
  replace (2 * (L * N) / 2) with (L * N)
    by (rewrite (Z.mul_comm 2), Z.div_mul; lia).
  fold (fresh_data env (Z.to_nat (L * N))).
  match goal with
  | |- context [store_records L N ?d0 ?w1] =>
      pose proof (store_records_shape L N d0 w1 HL HN ltac:(discriminate))
        as Hshape;
      destruct (store_records L N d0 w1) as [d1 w2|e w2|u1]
  end.
  - destruct Hshape as [_ Hw2]. unfold fclose, with_stream, set_stream.
    destruct (stream w2); [discriminate|contradiction].
  - contradiction.
  - intros Hu. inversion Hu; subst u1; clear Hu.
    destruct u as [|pt l| | |]; try contradiction.
    destruct Hshape as [-> Hpt]. rewrite fresh_data_length in *.
    exists pt. split; [f_equal; lia|lia].
Qed.

Lemma openTile_digit_header_witness :
  exists pt,
    OutOfBounds 2 2 = OutOfBounds pt 2 /\ 2 <= pt.
Proof.
  refine (openTile_digit_header dted2 (env_with file_1x2) "tile.dt2" file_1x2
            w0 "0"%byte "0"%byte "0"%byte "1"%byte
               "0"%byte "0"%byte "0"%byte "2"%byte
            _ _ _ _ _ _ _ _ _ _ _ _ _ _ (OutOfBounds 2 2) _);
    try (vm_compute; reflexivity);
    try (vm_compute; discriminate);
    try (vm_compute; split; discriminate).
Defined.

(** ** More on the codec *)

Lemma codec_checked :
  all_uint16 (fun u =>
    let x := u - 32768 in
    let y := toLittleEndian x in
    ((x =? 128) || (encode_like_disk y =? x))
    && (toLittleEndian (Z.lxor x 128) =? - y)) = true.
Proof. vm_compute. reflexivity. Qed.

Lemma codec_checked_at x :
  -32768 <= x <= 32767 ->
  (x = 128 \/ encode_like_disk (toLittleEndian x) = x)
  /\ toLittleEndian (Z.lxor x 128) = - toLittleEndian x.
Proof.
  intros Hx.
  pose proof (all_uint16_spec _ codec_checked (x + 32768) ltac:(lia)) as H.
  cbv beta zeta in H. replace (x + 32768 - 32768) with x in H by lia.
  apply andb_prop in H as [H1 H2]. apply Z.eqb_eq in H2.
  split; [|exact H2].
  apply orb_prop in H1 as [H1|H1]; apply Z.eqb_eq in H1; auto.
Qed.

(** X9: the codec is one-to-one on the 16-bit values except for the two
    zeros: two distinct arguments with the same result are 0 and 128 (the
    value read from the octets 80 00). *)
Theorem toLittleEndian_collisions a b :
  -32768 <= a <= 32767 -> -32768 <= b <= 32767 ->
  toLittleEndian a = toLittleEndian b ->
  a = b \/ (a = 0 /\ b = 128) \/ (a = 128 /\ b = 0).
Proof.
  intros Ha Hb Heq.
  destruct (codec_checked_at a Ha) as [[->|Ia] _];
    destruct (codec_checked_at b Hb) as [[->|Ib] _].
  - left. reflexivity.
  - right. right. split; [reflexivity|].
    rewrite <- Ib, <- Heq. reflexivity.
  - right. left. split; [|reflexivity].
    rewrite <- Ia, Heq. reflexivity.
  - left. rewrite <- Ia, <- Ib, Heq. reflexivity.
Qed.

Lemma toLittleEndian_collisions_witness :
  0 = 128 \/ (0 = 0 /\ 128 = 128) \/ (0 = 128 /\ 128 = 0).
Proof.
  apply (toLittleEndian_collisions 0 128); [lia|lia|reflexivity].
Defined.

(** X10: inverting bit 7 of the argument, the sign bit of the first octet
    on disk, negates the elevation. *)
Theorem toLittleEndian_sign_bit x :
  -32768 <= x <= 32767 ->
  toLittleEndian (Z.lxor x 128) = - toLittleEndian x.
Proof. intros Hx. apply (codec_checked_at x Hx). Qed.

Lemma toLittleEndian_sign_bit_witness :
  toLittleEndian (Z.lxor 25600 128) = - toLittleEndian 25600.
Proof. apply toLittleEndian_sign_bit. lia. Defined.

(** ** More on the container *)

Lemma double_to_int_Done x w t w' :
  double_to_int x w = Done t w' ->
  truncate x = Some t /\ w' = w /\ in_int t = true.
Proof.
  destruct x as [s|s| |s m e]; cbn [truncate double_to_int]; try discriminate.
  - intros H. inversion H. auto.
  - assert (Heq : (if s then - (if 0 <=? e then Z.pos m * 2 ^ e
                                 else Z.pos m / 2 ^ (- e))
                   else (if 0 <=? e then Z.pos m * 2 ^ e
                         else Z.pos m / 2 ^ (- e)))
                  = Z.quot ((if s then Z.neg m else Z.pos m) * 2 ^ Z.max e 0)
                           (2 ^ Z.max (- e) 0)).
    { destruct (0 <=? e) eqn:He.
      - apply Z.leb_le in He.
        rewrite (Z.max_l e 0) by lia. rewrite (Z.max_r (- e) 0) by lia.
        change (2 ^ 0) with 1. rewrite Z.quot_1_r.
        destruct s; [|reflexivity].
        change (Z.neg m) with (- Z.pos m). lia.
      - apply Z.leb_gt in He.
        rewrite (Z.max_r e 0) by lia. rewrite (Z.max_l (- e) 0) by lia.
        change (2 ^ 0) with 1. rewrite Z.mul_1_r.
        assert (Hp : 0 < 2 ^ (- e)) by (apply Z.pow_pos_nonneg; lia).
        destruct s.
        + change (Z.neg m) with (- Z.pos m).
          rewrite Z.quot_opp_l by lia.
          rewrite Z.quot_div_nonneg by lia. reflexivity.
        + rewrite Z.quot_div_nonneg by lia. reflexivity. }
    rewrite Heq.
    destruct (in_int _) eqn:Hin; [|discriminate].
    intros H. inversion H; subst. auto.
Qed.

Lemma degree_Done t w d w' :
  (if 0 <? t then ret t else bind (int_ (t - 1)) (fun u => int_ (- u))) w
  = Done d w' ->
  d = degree_magnitude t /\ w' = w /\ 1 <= d.
Proof.
  unfold degree_magnitude. destruct (0 <? t) eqn:E.
  - apply Z.ltb_lt in E. rewrite (proj2 (Z.leb_gt _ _)) by lia.
    intros H. inversion H; subst. repeat split; lia.
  - apply Z.ltb_ge in E. rewrite (proj2 (Z.leb_le _ _)) by lia.
    intros H. apply bind_Done in H as (u & w1 & H1 & H2).
    apply int_Done_inv in H1 as [-> ->]. apply int_Done_inv in H2 as [-> ->].
    repeat split; lia.
Qed.

(** X11: whenever lines 150-157 produce a name, it is the data directory
    followed by the latitude letter, the latitude degree on at least two
    digits, the longitude letter, the longitude degree on at least three
    digits and the suffix; each degree is at least 1 (no origin is given a
    file of degree 00 or 000), the name and its terminator fit the 35
    characters of [fileName], and the process state is untouched. *)
Theorem origin_fileName_Done cfg originLon originLat w name w' :
  origin_fileName cfg originLon originLat w = Done name w' ->
  w' = w
  /\ (String.length name < 35)%nat
  /\ exists tlon tlat,
       truncate originLon = Some tlon /\ truncate originLat = Some tlat
       /\ 1 <= degree_magnitude tlon /\ 1 <= degree_magnitude tlat
       /\ name
          = String.append (DATA_DIR cfg)
              (String (if double_gt0 originLat then "n"%char else "s"%char)
                 (String.append (fmt_0d 2 (degree_magnitude tlat))
                    (String "_"
                       (String (if double_gt0 originLon
                                then "e"%char else "w"%char)
                          (String.append (fmt_0d 3 (degree_magnitude tlon))
                             "_1arc_v3.dt2"))))).
Proof.
  unfold origin_fileName. intros H.
  apply bind_Done in H as (tlon & w1 & H1 & H).
  apply double_to_int_Done in H1 as (Hlon & -> & _).
  apply bind_Done in H as (dlon & w2 & H2 & H).
  apply degree_Done in H2 as (-> & -> & Hdlon).
  apply bind_Done in H as (tlat & w3 & H3 & H).
  apply double_to_int_Done in H3 as (Hlat & -> & _).
  apply bind_Done in H as (dlat & w4 & H4 & H).
  apply degree_Done in H4 as (-> & -> & Hdlat).
  cbv zeta in H.
  match type of H with
  | (if ?c then _ else _) _ = _ => destruct c eqn:Hc; [|discriminate]
  end.
  apply Z.leb_le in Hc. inversion H; subst; clear H.
  split; [reflexivity|]. split; [lia|].
  exists tlon, tlat. auto.
Qed.

Lemma origin_fileName_Done_witness :
  exists tlon tlat,
    truncate d_m3_2 = Some tlon /\ truncate d_m48_2 = Some tlat
    /\ 1 <= degree_magnitude tlon /\ 1 <= degree_magnitude tlat.
Proof.
  destruct (origin_fileName_Done dted2 d_m3_2 d_m48_2 w0
              "data/s49_w004_1arc_v3.dt2" w0)
    as (_ & _ & tlon & tlat & H1 & H2 & H3 & H4 & _).
  - vm_compute. reflexivity.
  - exists tlon, tlat. auto.
Defined.

Lemma truncate_one_positive x : truncate x = Some 1 -> double_gt0 x = true.
Proof.
  destruct x as [s|s| |s m e]; cbn [truncate]; try discriminate.
  destruct s; [|reflexivity].
  intros H. exfalso. injection H as H.
  assert (Hd : 0 < 2 ^ Z.max (- e) 0) by (apply Z.pow_pos_nonneg; lia).
  assert (Hn : 0 < 2 ^ Z.max e 0) by (apply Z.pow_pos_nonneg; lia).
  change (Z.neg m) with (- Z.pos m) in H.
  rewrite Z.mul_opp_l, Z.quot_opp_l in H by lia.
  assert (0 <= Z.quot (Z.pos m * 2 ^ Z.max e 0) (2 ^ Z.max (- e) 0))
    by (apply Z.quot_pos; nia).
  lia.
Qed.

(** X12: a coordinate strictly between 0 and 1 is given the degree 1 and the
    letter of the positive hemisphere, exactly as a coordinate from 1 up to
    2 is: the two origins are sent to the same file, in longitude and in
    latitude alike. *)
Theorem origin_fileName_first_degree cfg x y other w :
  truncate x = Some 0 -> double_gt0 x = true ->
  truncate y = Some 1 ->
  origin_fileName cfg x other w = origin_fileName cfg y other w
  /\ origin_fileName cfg other x w = origin_fileName cfg other y w.
Proof.
  intros Hx Hpos Hy. pose proof (truncate_one_positive y Hy) as Hpos'.
  assert (Hdx : forall w1, double_to_int x w1 = Done 0 w1)
    by (intros; apply double_to_int_truncate; [exact Hx|reflexivity]).
  assert (Hdy : forall w1, double_to_int y w1 = Done 1 w1)
    by (intros; apply double_to_int_truncate; [exact Hy|reflexivity]).
  split.
  - unfold origin_fileName. rewrite Hpos, Hpos'.
    unfold bind at 1. rewrite Hdx. symmetry.
    unfold bind at 1. rewrite Hdy. reflexivity.
  - unfold origin_fileName. rewrite Hpos, Hpos'.
    destruct (double_to_int other w) as [t w1|e w1|u] eqn:Ho;
      unfold bind at 1; rewrite Ho; symmetry; unfold bind at 1; rewrite Ho;
      [|reflexivity|reflexivity].
    unfold bind at 1.
    destruct ((if 0 <? t then ret t
               else bind (int_ (t - 1)) (fun u => int_ (- u))) w1)
      as [dt w2|e w2|u] eqn:Hd;
      symmetry; unfold bind at 1; rewrite Hd; [|reflexivity|reflexivity].
    unfold bind at 1. rewrite Hdx. symmetry.
    unfold bind at 1. rewrite Hdy. reflexivity.
Qed.

Lemma origin_fileName_first_degree_witness :
  origin_fileName dted2 d_0_5 d_0_5 w0
  = Done "data/n01_e001_1arc_v3.dt2"%string w0
  /\ origin_fileName dted2 d_1_5 d_0_5 w0
     = Done "data/n01_e001_1arc_v3.dt2"%string w0.
Proof.
  assert (H : origin_fileName dted2 d_0_5 d_0_5 w0
              = Done "data/n01_e001_1arc_v3.dt2"%string w0)
    by (vm_compute; reflexivity).
  split; [exact H|].
  rewrite <- (proj1 (origin_fileName_first_degree dted2 d_0_5 d_1_5 d_0_5 w0
                       ltac:(vm_compute; reflexivity)
                       ltac:(vm_compute; reflexivity)
                       ltac:(vm_compute; reflexivity))).
  exact H.
Defined.

Lemma origin_fileName_pure cfg originLon originLat w name w' :
  origin_fileName cfg originLon originLat w = Done name w' -> w' = w.
Proof.
  unfold origin_fileName. intros H.
  apply bind_Done in H as (tlon & w1 & H1 & H).
  apply double_to_int_Done in H1 as (_ & -> & _).
  apply bind_Done in H as (dlon & w2 & H2 & H).
  apply degree_Done in H2 as (_ & -> & _).
  apply bind_Done in H as (tlat & w3 & H3 & H).
  apply double_to_int_Done in H3 as (_ & -> & _).
  apply bind_Done in H as (dlat & w4 & H4 & H).
  apply degree_Done in H4 as (_ & -> & _).
  cbv zeta in H.
  match type of H with
  | (if ?c then _ else _) _ = _ => destruct c; [|discriminate]
  end.
  inversion H. reflexivity.
Qed.

Lemma openTile_Done_file cfg env fileName w t w' :
  openTile cfg env fileName w = Done t w' ->
  exists bytes, files env !! fileName = Some bytes.
Proof.
  intros H. destruct (files env !! fileName) as [bytes|] eqn:Hf; [eauto|].
  exfalso. unfold openTile in H. unfold bind at 1 in H. unfold fopen in H.
  rewrite Hf in H. unfold bind at 1 in H. discriminate.
Qed.

(** What a returning run of [initSpace] is made of. *)
Lemma initSpace_Done cfg env originLon originLat w sp w' :
  initSpace cfg env originLon originLat w = Done sp w' ->
  exists fileName t,
    origin_fileName cfg originLon originLat w = Done fileName w
    /\ openTile cfg env fileName w = Done t w'
    /\ 0 <= Z.quot (SIZE_SPACE cfg) 2 < SIZE_SPACE cfg
    /\ sp = {| originLon := originLon;
               originLat := originLat;
               tiles := <[Z.to_nat (Z.quot (SIZE_SPACE cfg) 2) := Some t]>
                          (replicate (Z.to_nat (SIZE_SPACE cfg)) None) |}.
Proof.
  intros H. unfold initSpace in H.
  apply bind_Done in H as (? & wa & Ha & H).
  destruct (space_alloc env); [|discriminate].
  inversion Ha; subst wa; clear Ha.
  apply bind_Done in H as (fileName & w1 & Hname & H).
  pose proof (origin_fileName_pure _ _ _ _ _ _ Hname) as ->.
  apply bind_Done in H as (t & w2 & Ht & H).
  destruct ((0 <=? Z.quot (SIZE_SPACE cfg) 2)
            && (Z.quot (SIZE_SPACE cfg) 2 <? SIZE_SPACE cfg)) eqn:Hc;
    [|discriminate].
  apply andb_prop in Hc as [Hc1 Hc2].
  apply Z.leb_le in Hc1. apply Z.ltb_lt in Hc2.
  inversion H; subst; clear H.
  exists fileName, t. auto.
Qed.

(** X13: a run of [initSpace] that returns has recorded the origin, has
    closed the one stream it opened, and has printed the three lines of
    the decoding of one file and nothing else. *)
Theorem initSpace_returns_closed cfg env lon lat w sp w' :
  0 <= DTED_DSI_NBLAT cfg -> 0 <= DTED_DSI_NBLON cfg ->
  0 <= DTED_DSI_DATACOV cfg ->
  initSpace cfg env lon lat w = Done sp w' ->
  originLon sp = lon
  /\ originLat sp = lat
  /\ stream w' = None
  /\ exists fileName bytes,
       files env !! fileName = Some bytes
       /\ console w'
          = console w
            ++ [OutOpening fileName;
                OutSize (Z.of_nat (length bytes));
                OutCoverage (coverage_of env (header_cov cfg env bytes))].
Proof.
  intros Hlat Hlon Hcov H.
  apply initSpace_Done in H as (fileName & t & Hname & Ht & _ & ->).
  cbn [originLon originLat].
  split; [reflexivity|]. split; [reflexivity|].
  destruct (openTile_Done_file _ _ _ _ _ _ Ht) as (bytes & Hf).
  split.
  - exact (proj1 (openTile_stream cfg env fileName bytes w Hf Hlat Hlon)
             t w' Ht).
  - exists fileName, bytes. split; [exact Hf|].
    rewrite (openTile_split cfg env fileName bytes w Hf Hlat Hlon) in Ht.
    apply bind_Done in Ht as (z & w1 & Hz & Ht).
    apply bind_Done in Ht as (? & w2 & Hc & Ht).
    destruct (expectedSize_of_pure cfg (nbLat_of cfg env bytes)
                (nbLon_of cfg env bytes) (world_at_check fileName bytes w))
      as [[z' Hz']|[u Hu]]; [|congruence].
    rewrite Hz' in Hz. inversion Hz; subst z' w1; clear Hz.
    destruct (Z.of_nat (length bytes) =? z); [|discriminate].
    inversion Hc; subst w2; clear Hc.
    eapply decode_body_console in Ht; [|exact Hcov|reflexivity].
    rewrite Ht. cbn [world_at_check console]. rewrite <- !app_assoc.
    reflexivity.
Qed.

Lemma initSpace_returns_closed_witness :
  exists sp w',
    initSpace dted2
      (env_of {[ "data/s49_w004_1arc_v3.dt2"%string := file_2x2 ]})
      d_m3_2 d_m48_2 w0 = Done sp w'
    /\ stream w' = None.
Proof.
  assert (Hrun : exists sp w',
             initSpace dted2
               (env_of {[ "data/s49_w004_1arc_v3.dt2"%string := file_2x2 ]})
               d_m3_2 d_m48_2 w0 = Done sp w')
    by (eexists _, _; vm_compute; reflexivity).
  destruct Hrun as (sp & w' & Hrun). exists sp, w'. split; [exact Hrun|].
  refine (proj1 (proj2 (proj2
            (initSpace_returns_closed dted2 _ d_m3_2 d_m48_2 w0 sp w'
               _ _ _ Hrun)))); vm_compute; discriminate.
Defined.

(** ** Releasing a space *)

Lemma freeSpace_loop (slots : list (option Tile)) :
  forall n (k : nat) freed w,
    (k + n <= length slots)%nat ->
    for_loop n (Z.of_nat k) (fun i freed =>
        match slots !! Z.to_nat i with
        | Some (Some tile) => ret (freed ++ freeTile tile)
        | Some None => ret freed
        | None => undefined (OutOfBounds i (Z.of_nat (length slots)))
        end) freed w
    = Done (freed ++ concat (map slot_blocks (take n (drop k slots)))) w.
Proof.
  induction n as [|n IH]; intros k freed w Hk.
  - cbn. rewrite app_nil_r. reflexivity.
  - cbn [for_loop]. unfold bind. rewrite Nat2Z.id.
    destruct (lookup_lt_is_Some_2 slots k ltac:(lia)) as [slot Hslot].
    rewrite Hslot, (drop_S _ _ _ Hslot). cbn [take map concat].
    replace (Z.of_nat k + 1) with (Z.of_nat (S k)) by lia.
    destruct slot as [tile|]; rewrite ret_Done, IH by lia; cbn [slot_blocks].
    + rewrite <- app_assoc. reflexivity.
    + reflexivity.
Qed.

(** X14: [freeSpace] releases, slot by slot, the array and then the
    structure of every tile present, passes over the null slots, and
    releases the space last. *)
Theorem freeSpace_blocks cfg space w :
  0 <= SIZE_SPACE cfg ->
  length (tiles space) = Z.to_nat (SIZE_SPACE cfg) ->
  freeSpace cfg space w
  = Done (concat (map slot_blocks (tiles space)) ++ [SpaceBlock space]) w.
Proof.
  intros Hsize Hlen. unfold freeSpace, bind.
  rewrite (freeSpace_loop (tiles space) _ 0%nat [] w) by (cbn; lia).
  rewrite drop_0, <- Hlen, firstn_all. reflexivity.
Qed.

Lemma freeSpace_blocks_witness :
  let t := {| latitudeDimension := 1; longitudeDimension := 1;
              data := [100] |} in
  let space := {| originLon := d_2_5; originLat := d_48_8;
                  tiles := [None; None; None; None; Some t;
                            None; None; None; None] |} in
  freeSpace dted2 space w0
  = Done [DataBlock [100]; TileBlock t; SpaceBlock space] w0.
Proof.
  intros t space.
  refine (freeSpace_blocks dted2 space w0 _ _).
  - vm_compute. discriminate.
  - reflexivity.
Defined.

Lemma slot_blocks_replicate_None n :
  concat (map slot_blocks (replicate n None)) = [].
Proof. induction n as [|n IH]; [reflexivity|exact IH]. Qed.

(** X15: after a run of [initSpace] that returns, [freeSpace] releases
    exactly three blocks: the array of the tile of the centre slot, that
    tile, and the space. *)
Theorem initSpace_then_freeSpace cfg env originLon originLat w sp w' :
  initSpace cfg env originLon originLat w = Done sp w' ->
  exists t,
    tiles sp !! Z.to_nat (Z.quot (SIZE_SPACE cfg) 2) = Some (Some t)
    /\ freeSpace cfg sp w'
       = Done [DataBlock (data t); TileBlock t; SpaceBlock sp] w'.
Proof.
  intros H.
  apply initSpace_Done in H as (fileName & t & _ & _ & Hc & ->).
  exists t. cbn [tiles]. split.
  - apply list_lookup_insert_eq. rewrite length_replicate. lia.
  - rewrite freeSpace_blocks;
      [|lia|cbn [tiles]; rewrite length_insert, length_replicate; reflexivity].
    cbn [tiles].
    rewrite insert_take_drop by (rewrite length_replicate; lia).
    rewrite take_replicate, drop_replicate, map_app, concat_app.
    cbn [map concat]. rewrite !slot_blocks_replicate_None.
    cbn [slot_blocks freeTile app]. reflexivity.
Qed.

Lemma initSpace_then_freeSpace_witness :
  exists sp w' t,
    initSpace dted2
      (env_of {[ "data/s49_w004_1arc_v3.dt2"%string := file_2x2 ]})
      d_m3_2 d_m48_2 w0 = Done sp w'
    /\ freeSpace dted2 sp w'
       = Done [DataBlock (data t); TileBlock t; SpaceBlock sp] w'.
Proof.
  assert (Hrun : exists sp w',
             initSpace dted2
               (env_of {[ "data/s49_w004_1arc_v3.dt2"%string := file_2x2 ]})
               d_m3_2 d_m48_2 w0 = Done sp w')
    by (eexists _, _; vm_compute; reflexivity).
  destruct Hrun as (sp & w' & Hrun).
  destruct (initSpace_then_freeSpace dted2 _ d_m3_2 d_m48_2 w0 sp w' Hrun)
    as (t & _ & Hfree).
  exists sp, w', t. split; [exact Hrun|exact Hfree].
Defined.
